(** * Kitfile generation (pkg/lib/kitfile/generate.go)

    A shallow embedding of [GenerateKitfile] and its helpers
    ([addDirToKitfile], [determineFileType], [addModelToKitfile],
    [detectLicense], [anySuffix]) together with the properties of the
    classification-and-assembly algorithm.

    The filesystem and the license scanner are the only effects of the
    source; they are read through a record of oracles ([FS]) that is passed
    explicitly.  The [*artifact.KitFile] that the source mutates in place is
    threaded as a value. *)

From Stdlib Require Import List String Ascii ZArith Bool Arith Lia.
From Stdlib Require Import Permutation.
Import ListNotations.

Local Open Scope string_scope.
Local Open Scope list_scope.

Set Implicit Arguments.

(* ================================================================== *)
(** * Go library functions used by the source *)
(* ================================================================== *)

Module GoStrings.

(** [strings.HasSuffix]:
    [len(s) >= len(suffix) && s[len(s)-len(suffix):] == suffix]. *)
Definition HasSuffix (s suffix : string) : bool :=
  (String.length suffix <=? String.length s)%nat &&
  (substring (String.length s - String.length suffix)
             (String.length suffix) s =? suffix)%string.

(** [strings.HasPrefix]:
    [len(s) >= len(prefix) && s[:len(prefix)] == prefix]. *)
Definition HasPrefix (s prefix : string) : bool :=
  (String.length prefix <=? String.length s)%nat &&
  (substring 0 (String.length prefix) s =? prefix)%string.

(** [strings.TrimSuffix]. *)
Definition TrimSuffix (s suffix : string) : string :=
  if HasSuffix s suffix
  then substring 0 (String.length s - String.length suffix) s
  else s.

(** The case mapping of a byte below 0x80: 'A'..'Z' become 'a'..'z'. *)
Definition lower_ascii (c : ascii) : ascii :=
  let n := nat_of_ascii c in
  if ((65 <=? n) && (n <=? 90))%nat then ascii_of_nat (n + 32) else c.

(** [strings.ToLower], on the bytes of the UTF-8 string.  The runes that
    [unicode.ToLower] maps to an ASCII letter are 'A'..'Z' and the two
    runes U+0130 (bytes C4 B0, lowered to 'i') and U+212A (bytes E2 84
    AA, lowered to 'k'); they are lowered here as Go lowers them.  Every
    other rune is kept: Go maps it to a rune that is not ASCII either, so
    this function and Go's agree on the ASCII letters of the result and
    on where they are, which is all that a comparison of the result with
    an ASCII prefix reads. *)
Fixpoint ToLower (s : string) : string :=
  match s with
  | EmptyString => EmptyString
  | String c s' =>
      match s' with
      | String c1 s1 =>
          if (nat_of_ascii c =? 196)%nat && (nat_of_ascii c1 =? 176)%nat
          then String "i"%char (ToLower s1)
          else
            match s1 with
            | String c2 s2 =>
                if (nat_of_ascii c =? 226)%nat && (nat_of_ascii c1 =? 132)%nat
                   && (nat_of_ascii c2 =? 170)%nat
                then String "k"%char (ToLower s2)
                else String (lower_ascii c) (ToLower s')
            | EmptyString => String (lower_ascii c) (ToLower s')
            end
      | EmptyString => String (lower_ascii c) EmptyString
      end
  end.

End GoStrings.

Module GoFilepath.

Definition Separator : ascii := "/"%char.
Definition IsPathSeparator (c : ascii) : bool := Ascii.eqb c Separator.

(** The loop of [filepath.Ext], which walks the path from its last byte
    towards the front: [r] is what is still to be visited (reversed),
    [acc] the bytes already passed. *)
Fixpoint ext_scan (r acc : list ascii) : list ascii :=
  match r with
  | [] => []
  | c :: r' =>
      if IsPathSeparator c then []
      else if Ascii.eqb c "."%char then c :: acc
      else ext_scan r' (c :: acc)
  end.

(** [filepath.Ext]: the suffix beginning at the final dot of the final
    element of the path, empty when there is no dot. *)
Definition Ext (path : string) : string :=
  string_of_list_ascii (ext_scan (rev (list_ascii_of_string path)) []).

Fixpoint strip_separators (r : list ascii) : list ascii :=
  match r with
  | c :: r' => if IsPathSeparator c then strip_separators r' else r
  | [] => []
  end.

Fixpoint last_element (r acc : list ascii) : list ascii :=
  match r with
  | [] => acc
  | c :: r' => if IsPathSeparator c then acc else last_element r' (c :: acc)
  end.

(** [filepath.Base] (the volume name is empty on the platforms whose
    separator is '/'). *)
Definition Base (path : string) : string :=
  if (path =? "")%string then "."
  else
    let r := strip_separators (rev (list_ascii_of_string path)) in
    let e := string_of_list_ascii (last_element r []) in
    if (e =? "")%string then String Separator EmptyString else e.

(** [filepath.Join] of a directory name and the name of one of its
    entries.  Both arguments are names that [os.ReadDir] returned (not
    empty, without separator, neither "." nor ".."), on which the
    [Clean] that [Join] applies changes nothing. *)
Definition Join (dir name : string) : string :=
  (dir ++ String Separator EmptyString ++ name)%string.

End GoFilepath.

Import GoStrings GoFilepath.

(* ================================================================== *)
(** * File types and suffix tables *)
(* ================================================================== *)

Inductive fileType : Type :=
| fileTypeModel
| fileTypeDataset
| fileTypeCode
| fileTypeDocs
| fileTypeMetadata
| fileTypeUnknown.

(** The [iota] numbering of the constants. *)
Definition int_of_fileType (t : fileType) : nat :=
  match t with
  | fileTypeModel => 0
  | fileTypeDataset => 1
  | fileTypeCode => 2
  | fileTypeDocs => 3
  | fileTypeMetadata => 4
  | fileTypeUnknown => 5
  end.

(** The conversion [fileType(i)] of an array index. *)
Definition fileType_of_int (i : nat) : fileType :=
  match i with
  | 0 => fileTypeModel
  | 1 => fileTypeDataset
  | 2 => fileTypeCode
  | 3 => fileTypeDocs
  | 4 => fileTypeMetadata
  | _ => fileTypeUnknown
  end.

Definition fileType_eqb (a b : fileType) : bool :=
  Nat.eqb (int_of_fileType a) (int_of_fileType b).

Definition modelWeightsSuffixes : list string :=
  [ ".safetensors"; ".pkl"; ".joblib";
    ".bin"; ".pth"; ".pt"; ".mar"; ".pt2"; ".ptl";
    ".pb"; ".ckpt"; ".tflite"; ".tfrecords";
    ".npy"; ".npz";
    ".keras"; ".h5"; ".caffemodel"; ".pmml"; ".coreml";
    ".gguf"; ".ggml"; ".ggmf"; ".llamafile"; ".onnx" ].

Definition docsSuffixes : list string :=
  [ ".md"; ".adoc"; ".html"; ".pdf" ].

Definition metadataSuffixes : list string :=
  [ ".json"; ".yaml"; ".xml"; ".txt" ].

Definition datasetSuffixes : list string :=
  [ ".tar"; ".zip"; ".parquet"; ".csv" ].

Fixpoint anySuffix (query : string) (suffixes : list string) : bool :=
  match suffixes with
  | [] => false
  | suffix :: rest =>
      if HasSuffix query suffix then true else anySuffix query rest
  end.

Definition determineFileType (filename : string) : fileType :=
  if anySuffix filename modelWeightsSuffixes then fileTypeModel
  else if anySuffix filename metadataSuffixes then fileTypeMetadata
  else if anySuffix filename docsSuffixes then fileTypeDocs
  else if anySuffix filename datasetSuffixes then fileTypeDataset
  else fileTypeUnknown.


(* ================================================================== *)
(** * The manifest (package artifact) *)
(* ================================================================== *)

Module artifact.

(** Modelled from the spec: the type declarations of package [artifact]
    ([KitFile], [Package], [Model], [ModelPart], [DataSet], [Docs],
    [Code]) are not part of the sources at hand.  The records below have
    the fields that generate.go reads and writes, which are the fields
    the data model of the specification lists.  A field of Go name [F] in
    type [T] is [T_F]. *)
Record Package : Type := mkPackage {
  Package_Name : string;
  Package_Description : string;
  Package_License : string
}.

Record ModelPart : Type := mkModelPart {
  ModelPart_Path : string
}.

Record Model : Type := mkModel {
  Model_Path : string;
  Model_Name : string;
  Model_License : string;
  Model_Parts : list ModelPart
}.

Record DataSet : Type := mkDataSet {
  DataSet_Path : string;
  DataSet_License : string
}.

Record Docs : Type := mkDocs {
  Docs_Path : string;
  Docs_Description : string
}.

Record Code : Type := mkCode {
  Code_Path : string;
  Code_License : string
}.

(** [KitFile_Model] is the pointer field [Model *Model]: [None] is nil. *)
Record KitFile : Type := mkKitFile {
  KitFile_ManifestVersion : string;
  KitFile_Package : Package;
  KitFile_Model : option Model;
  KitFile_DataSets : list DataSet;
  KitFile_Docs : list Docs;
  KitFile_Code : list Code
}.

(** The zero value of [Package]. *)
Definition emptyPackage : Package := mkPackage "" "" "".

End artifact.

Import artifact.

(** Field updates of the manifest, as the assignments of the source. *)
Definition set_Package (k : KitFile) (p : Package) : KitFile :=
  mkKitFile (KitFile_ManifestVersion k) p (KitFile_Model k)
            (KitFile_DataSets k) (KitFile_Docs k) (KitFile_Code k).

Definition set_Model (k : KitFile) (m : option Model) : KitFile :=
  mkKitFile (KitFile_ManifestVersion k) (KitFile_Package k) m
            (KitFile_DataSets k) (KitFile_Docs k) (KitFile_Code k).

Definition set_DataSets (k : KitFile) (l : list DataSet) : KitFile :=
  mkKitFile (KitFile_ManifestVersion k) (KitFile_Package k) (KitFile_Model k)
            l (KitFile_Docs k) (KitFile_Code k).

Definition set_Docs (k : KitFile) (l : list Docs) : KitFile :=
  mkKitFile (KitFile_ManifestVersion k) (KitFile_Package k) (KitFile_Model k)
            (KitFile_DataSets k) l (KitFile_Code k).

Definition set_Code (k : KitFile) (l : list Code) : KitFile :=
  mkKitFile (KitFile_ManifestVersion k) (KitFile_Package k) (KitFile_Model k)
            (KitFile_DataSets k) (KitFile_Docs k) l.

(* ================================================================== *)
(** * The environment: filesystem, license scanner, constants *)
(* ================================================================== *)

(** An [fs.DirEntry], as far as the source looks at it. *)
Record DirEntry : Type := mkDirEntry {
  Name : string;
  IsDir : bool
}.

(** What a run of [GenerateKitfile baseDir] reads from outside.  Paths are
    the ones the source hands to [filepath.Join(baseDir, _)].

    - [IsDefaultKitfileName] is [constants.IsDefaultKitfileName], whose
      package is not part of the sources at hand: it is a parameter.
    - [ReadBaseDir] is [os.ReadDir(baseDir)], [None] on error.
    - [ReadDir p] is [os.ReadDir(filepath.Join(baseDir, p))].
    - [StatSize p] is [os.Stat(filepath.Join(baseDir, p))] followed by
      [Size()], an int64.
    - [ScanFile p] is [os.ReadFile(filepath.Join(baseDir, p))] followed by
      [licensecheck.Scan]: [None] when the read fails, otherwise the IDs of
      [cov.Match] in order. *)
Record Env : Type := mkEnv {
  IsDefaultKitfileName : string -> bool;
  ReadBaseDir : option (list DirEntry);
  ReadDir : string -> option (list DirEntry);
  StatSize : string -> option Z;
  ScanFile : string -> option (list string)
}.

(** The errors of [addDirToKitfile]. *)
Inductive dirError : Type :=
| errReadDirectory (dirPath : string)
    (* "failed to read directory %s: %w" *)
| errMixedContent
    (* "mixed content in directory; unable to determine type" *)
| errHandleAsCode.
    (* "directory should be handled as Code" *)

(** The errors of [addModelToKitfile], [detectLicense] and
    [GenerateKitfile]. *)
Inductive error : Type :=
| errProcessFile (path : string)
    (* "failed to process file %s: %w" *)
| errReadLicense
    (* "failed to read license file: %w" *)
| errMultipleLicenses
    (* "multiple licenses matched license file" *)
| errReadingBaseDir
    (* "error reading directory: %w" *)
| errAddModel (cause : error).
    (* "failed to add model to Kitfile: %w" *)

Inductive result (A : Type) : Type :=
| Ok (a : A)
| Err (e : error).

Arguments Ok {A} a.
Arguments Err {A} e.

(* ================================================================== *)
(** * int64 arithmetic *)
(* ================================================================== *)

Module Int64.

Local Open Scope Z_scope.

Definition min_int : Z := - 2 ^ 63.
Definition max_int : Z := 2 ^ 63 - 1.

(** Two's complement wrap-around of a mathematical integer. *)
Definition wrap (z : Z) : Z := (z + 2 ^ 63) mod 2 ^ 64 - 2 ^ 63.

Definition add (a b : Z) : Z := wrap (a + b).

(** Go's [/] truncates towards zero. *)
Definition div (a b : Z) : Z := wrap (Z.quot a b).

Definition in_range (z : Z) : Prop := min_int <= z <= max_int.

End Int64.

(* ================================================================== *)
(** * addDirToKitfile *)
(* ================================================================== *)

(** [directoryContents] is the array
    [[int(fileTypeUnknown) + 1][]string{}], a list of six lists. *)
Definition emptyContents : list (list string) :=
  repeat [] (int_of_fileType fileTypeUnknown + 1).

(** [a[i] = append(a[i], x)]. *)
Fixpoint append_at (i : nat) (x : string) (a : list (list string))
  : list (list string) :=
  match a, i with
  | [], _ => []
  | l :: r, 0 => (l ++ [x]) :: r
  | l :: r, S i' => l :: append_at i' x r
  end.

(** One round of the loop over the entries of the directory
    (lines 227-239): the state is [(modelFiles, directoryContents)]. *)
Definition sortEntry (dirPath : string)
  (acc : list string * list (list string)) (entry : DirEntry)
  : list string * list (list string) :=
  let '(modelFiles, directoryContents) := acc in
  let relPath := Join dirPath (Name entry) in
  if IsDir entry then
    (modelFiles,
     append_at (int_of_fileType fileTypeUnknown) relPath directoryContents)
  else
    let fileType := determineFileType (Name entry) in
    let modelFiles :=
      if fileType_eqb fileType fileTypeModel
      then modelFiles ++ [relPath] else modelFiles in
    (modelFiles, append_at (int_of_fileType fileType) relPath directoryContents).

Definition sortEntries (dirPath : string) (entries : list DirEntry)
  : list string * list (list string) :=
  fold_left (sortEntry dirPath) entries ([], emptyContents).

(** One round of the loop [for fType, files := range directoryContents]
    (lines 244-252): the state is
    [(overallFiletype, directoryHasMixedContents)]. *)
Definition reduceStep (acc : fileType * bool) (b : nat * list string)
  : fileType * bool :=
  let '(overallFiletype, directoryHasMixedContents) := acc in
  let '(fType, files) := b in
  if (0 <? List.length files)%nat
     && negb (fileType_eqb (fileType_of_int fType) fileTypeMetadata)
  then
    (fileType_of_int fType,
     if negb (fileType_eqb overallFiletype fileTypeUnknown)
     then true else directoryHasMixedContents)
  else acc.

Definition reduceContents (directoryContents : list (list string))
  : fileType * bool :=
  fold_left reduceStep
    (combine (seq 0 (List.length directoryContents)) directoryContents)
    (fileTypeUnknown, false).

Definition isCodeDirName (n : string) : bool :=
  (n =? "src")%string || (n =? "pkg")%string
  || (n =? "lib")%string || (n =? "build")%string.

(** [addDirToKitfile kitfile baseDir dirPath d]: the result is the
    manifest after the call, the returned [modelFiles] and the returned
    error ([None] is nil). *)
Definition addDirToKitfile (env : Env) (kitfile : KitFile)
  (dirPath : string) (d : DirEntry)
  : KitFile * list string * option dirError :=
  if (Name d =? "docs")%string then
    (set_Docs kitfile (KitFile_Docs kitfile ++ [mkDocs dirPath ""]), [], None)
  else if isCodeDirName (Name d) then
    (set_Code kitfile (KitFile_Code kitfile ++ [mkCode dirPath ""]), [], None)
  else
    match ReadDir env dirPath with
    | None => (kitfile, [], Some (errReadDirectory dirPath))
    | Some entries =>
        let '(modelFiles, directoryContents) := sortEntries dirPath entries in
        let '(overallFiletype, directoryHasMixedContents) :=
          reduceContents directoryContents in
        if directoryHasMixedContents then
          (kitfile, modelFiles, Some errMixedContent)
        else
          match overallFiletype with
          | fileTypeModel =>
              (kitfile,
               modelFiles
                 ++ nth (int_of_fileType fileTypeMetadata) directoryContents [],
               None)
          | fileTypeDataset =>
              (set_DataSets kitfile
                 (KitFile_DataSets kitfile ++ [mkDataSet dirPath ""]),
               modelFiles, None)
          | fileTypeDocs =>
              (set_Docs kitfile (KitFile_Docs kitfile ++ [mkDocs dirPath ""]),
               modelFiles, None)
          | _ => (kitfile, modelFiles, Some errHandleAsCode)
          end
    end.

(* ================================================================== *)
(** * addModelToKitfile *)
(* ================================================================== *)

(** The loop over [modelPaths] that stats every file (lines 315-326); the
    state is [(largestFile, largestSize, averageSize)].  The first stat
    that fails ends the function with its error. *)
Fixpoint statLoop (env : Env) (modelPaths : list string)
  (acc : string * Z * Z) : result (string * Z * Z) :=
  match modelPaths with
  | [] => Ok acc
  | modelFile :: rest =>
      let '(largestFile, largestSize, averageSize) := acc in
      match StatSize env modelFile with
      | None => Err (errProcessFile modelFile)
      | Some size =>
          let '(largestFile, largestSize) :=
            if (largestSize <? size)%Z
            then (modelFile, size) else (largestFile, largestSize) in
          statLoop env rest (largestFile, largestSize, Int64.add averageSize size)
      end
  end.

(** The paths that become parts when [largestFile] is the model
    (lines 337-344). *)
Definition partsExcept (largestFile : string) (modelPaths : list string)
  : list ModelPart :=
  map mkModelPart
      (filter (fun modelFile => negb (modelFile =? largestFile)%string)
              modelPaths).

Definition addModelToKitfile (env : Env) (kitfile : KitFile)
  (modelPaths : list string) : result KitFile :=
  match modelPaths with
  | [] => Ok kitfile
  | [modelPath] =>
      let filename := Base modelPath in
      Ok (set_Model kitfile
            (Some (mkModel modelPath
                           (TrimSuffix filename (Ext filename)) "" [])))
  | first :: others =>
      match statLoop env modelPaths ("", 0%Z, 0%Z) with
      | Err e => Err e
      | Ok (largestFile, largestSize, averageSize) =>
          let averageSize :=
            Int64.div averageSize (Z.of_nat (List.length modelPaths)) in
          if (Int64.add averageSize (Int64.div averageSize 2) <? largestSize)%Z
          then
            Ok (set_Model kitfile
                  (Some (mkModel largestFile
                                 (TrimSuffix largestFile (Ext largestFile))
                                 ""
                                 (partsExcept largestFile modelPaths))))
          else
            Ok (set_Model kitfile
                  (Some (mkModel first "" "" (map mkModelPart others))))
      end
  end.

(* ================================================================== *)
(** * detectLicense *)
(* ================================================================== *)

(** The pair is the returned string and the returned error. *)
Definition detectLicense (env : Env) (licensePath : string)
  : string * option error :=
  match ScanFile env licensePath with
  | None => ("", Some errReadLicense)
  | Some [id] => (id, None)
  | Some _ => ("", Some errMultipleLicenses)
  end.

(* ================================================================== *)
(** * GenerateKitfile *)
(* ================================================================== *)

(** The manifest under construction and the local variables of
    [GenerateKitfile] that the loop over the entries of the base directory
    updates. *)
Record genState : Type := mkGenState {
  kitfile : KitFile;
  includeCatchallSection : bool;
  unprocessedDirPaths : list string;
  modelFiles : list string;
  metadataPaths : list string;
  detectedLicenseType : string
}.

(** Lines 74-79 and 88-94. *)
Definition initKitfile (packageOpt : option Package) : KitFile :=
  mkKitFile "1.0.0"
    (match packageOpt with Some p => p | None => emptyPackage end)
    None [] [] [].

Definition initState (packageOpt : option Package) : genState :=
  mkGenState (initKitfile packageOpt) false [] [] [] "".

Definition isReadme (filename : string) : bool :=
  HasPrefix (ToLower filename) "readme".

Definition isLicense (filename : string) : bool :=
  HasPrefix (ToLower filename) "license".

(** The body of the loop [for _, d := range ds] (lines 95-157). *)
Definition rootStep (env : Env) (st : genState) (d : DirEntry) : genState :=
  let filename := Name d in
  if IsDefaultKitfileName env filename then st
  else if IsDir d then
    let '(kitfile', dirModelFiles, err) :=
      addDirToKitfile env (kitfile st) filename d in
    mkGenState kitfile' (includeCatchallSection st)
      (match err with
       | Some _ => unprocessedDirPaths st ++ [filename]
       | None => unprocessedDirPaths st
       end)
      (modelFiles st ++ dirModelFiles)
      (metadataPaths st) (detectedLicenseType st)
  else if isReadme filename then
    mkGenState
      (set_Docs (kitfile st)
         (KitFile_Docs (kitfile st) ++ [mkDocs filename "Readme file"]))
      (includeCatchallSection st) (unprocessedDirPaths st)
      (modelFiles st) (metadataPaths st) (detectedLicenseType st)
  else if isLicense filename then
    let '(licenseType, _) := detectLicense env filename in
    mkGenState
      (set_Docs (kitfile st)
         (KitFile_Docs (kitfile st) ++ [mkDocs filename "License file"]))
      (includeCatchallSection st) (unprocessedDirPaths st)
      (modelFiles st) (metadataPaths st) licenseType
  else
    match determineFileType filename with
    | fileTypeModel =>
        mkGenState (kitfile st) (includeCatchallSection st)
          (unprocessedDirPaths st) (modelFiles st ++ [filename])
          (metadataPaths st) (detectedLicenseType st)
    | fileTypeMetadata =>
        mkGenState (kitfile st) (includeCatchallSection st)
          (unprocessedDirPaths st) (modelFiles st)
          (metadataPaths st ++ [filename]) (detectedLicenseType st)
    | fileTypeDocs =>
        mkGenState
          (set_Docs (kitfile st)
             (KitFile_Docs (kitfile st) ++ [mkDocs filename ""]))
          (includeCatchallSection st) (unprocessedDirPaths st)
          (modelFiles st) (metadataPaths st) (detectedLicenseType st)
    | fileTypeDataset =>
        mkGenState
          (set_DataSets (kitfile st)
             (KitFile_DataSets (kitfile st) ++ [mkDataSet filename ""]))
          (includeCatchallSection st) (unprocessedDirPaths st)
          (modelFiles st) (metadataPaths st) (detectedLicenseType st)
    | _ =>
        mkGenState (kitfile st) true (unprocessedDirPaths st)
          (modelFiles st) (metadataPaths st) (detectedLicenseType st)
    end.

Definition rootPass (env : Env) (ds : list DirEntry) (st : genState)
  : genState :=
  fold_left (rootStep env) ds st.

(** [kitfile.Model.Parts = append(kitfile.Model.Parts, ...)] for every
    metadata path (lines 164-166).  [kitfile.Model] is not nil at that
    point of the source; on nil the manifest is returned as it is. *)
Definition appendModelParts (k : KitFile) (paths : list string) : KitFile :=
  match KitFile_Model k with
  | Some m =>
      set_Model k
        (Some (mkModel (Model_Path m) (Model_Name m) (Model_License m)
                       (Model_Parts m ++ map mkModelPart paths)))
  | None => k
  end.

(** Lines 159-172. *)
Definition assembleModel (env : Env) (st : genState) : result KitFile :=
  match modelFiles st with
  | _ :: _ =>
      match addModelToKitfile env (kitfile st) (modelFiles st) with
      | Err e => Err (errAddModel e)
      | Ok k => Ok (appendModelParts k (metadataPaths st))
      end
  | [] =>
      Ok (set_DataSets (kitfile st)
            (KitFile_DataSets (kitfile st)
               ++ map (fun p => mkDataSet p "") (metadataPaths st)))
  end.

(** Lines 174-185. *)
Definition addCodeLayers (k : KitFile) (includeCatchall : bool)
  (unprocessed : list string) : KitFile :=
  if includeCatchall || (5 <? List.length unprocessed)%nat
  then set_Code k [mkCode "." ""]
  else set_Code k (KitFile_Code k ++ map (fun p => mkCode p "") unprocessed).

(** Lines 187-197. *)
Definition attachLicense (k : KitFile) (license : string) : KitFile :=
  match KitFile_Model k, (license =? "")%string with
  | Some m, false =>
      set_Model k
        (Some (mkModel (Model_Path m) (Model_Name m) license (Model_Parts m)))
  | _, _ =>
      match KitFile_DataSets k with
      | [d] => set_DataSets k [mkDataSet (DataSet_Path d) license]
      | _ =>
          match KitFile_Code k with
          | [c] => set_Code k [mkCode (Code_Path c) license]
          | _ =>
              set_Package k
                (mkPackage (Package_Name (KitFile_Package k))
                           (Package_Description (KitFile_Package k))
                           license)
          end
      end
  end.

Definition GenerateKitfile (env : Env) (packageOpt : option Package)
  : result KitFile :=
  match ReadBaseDir env with
  | None => Err errReadingBaseDir
  | Some ds =>
      let st := rootPass env ds (initState packageOpt) in
      match assembleModel env st with
      | Err e => Err e
      | Ok k =>
          Ok (attachLicense
                (addCodeLayers k (includeCatchallSection st)
                               (unprocessedDirPaths st))
                (detectedLicenseType st))
      end
  end.

(* ================================================================== *)
(** * Notions used in the statements *)
(* ================================================================== *)

(** [suffix] is the exact trailing character sequence of [s]. *)
Definition isSuffixOf (suffix s : string) : Prop :=
  exists p, s = (p ++ suffix)%string.

(** Some suffix of the table is a trailing sequence of the name. *)
Definition matchesTable (filename : string) (table : list string) : Prop :=
  exists suffix, In suffix table /\ isSuffixOf suffix filename.

(** ** The directory summarizer, in the words of the specification *)

(** The category of an immediate child: a nested directory is Unknown, a
    file has the category of its name. *)
Definition childType (e : DirEntry) : fileType :=
  if IsDir e then fileTypeUnknown else determineFileType (Name e).

(** The paths of the children of category [t], in the order of the
    listing. *)
Definition childrenOf (dirPath : string) (entries : list DirEntry)
  (t : fileType) : list string :=
  map (fun e => Join dirPath (Name e))
      (filter (fun e => fileType_eqb (childType e) t) entries).

(** A category is active when it has at least one member. *)
Definition active (entries : list DirEntry) (t : fileType) : bool :=
  existsb (fun e => fileType_eqb (childType e) t) entries.

(** The active categories other than Metadata. *)
Definition activeCategories (entries : list DirEntry) : list fileType :=
  filter (active entries)
    [fileTypeModel; fileTypeDataset; fileTypeCode; fileTypeDocs;
     fileTypeUnknown].

(** The outcome of summarizing a directory whose listing is [entries]:
    mixed when more than one category other than Metadata is active; the
    verdict of the single active category when there is exactly one;
    treat-as-Code when there is none or when the single one is Code or
    Unknown. *)
Definition summarizeSpec (k : KitFile) (dirPath : string)
  (entries : list DirEntry) : KitFile * list string * option dirError :=
  match activeCategories entries with
  | [] => (k, [], Some errHandleAsCode)
  | [fileTypeModel] =>
      (k,
       childrenOf dirPath entries fileTypeModel
         ++ childrenOf dirPath entries fileTypeMetadata,
       None)
  | [fileTypeDataset] =>
      (set_DataSets k (KitFile_DataSets k ++ [mkDataSet dirPath ""]), [], None)
  | [fileTypeDocs] =>
      (set_Docs k (KitFile_Docs k ++ [mkDocs dirPath ""]), [], None)
  | [_] => (k, [], Some errHandleAsCode)
  | _ :: _ :: _ =>
      (k, childrenOf dirPath entries fileTypeModel, Some errMixedContent)
  end.

(** The directory names that [addDirToKitfile] decides without reading
    the directory. *)
Definition isSpecialDirName (n : string) : bool :=
  (n =? "docs")%string || isCodeDirName n.

(** ** The entries of the base directory *)

(** How the loop of [GenerateKitfile] treats an entry. *)
Inductive rootKind : Type :=
| skippedKitfile
| subdirectory
| readmeFile
| licenseFile
| typedFile (t : fileType).

Definition rootKindOf (env : Env) (d : DirEntry) : rootKind :=
  if IsDefaultKitfileName env (Name d) then skippedKitfile
  else if IsDir d then subdirectory
  else if isReadme (Name d) then readmeFile
  else if isLicense (Name d) then licenseFile
  else typedFile (determineFileType (Name d)).

(** The summary of a subdirectory of the base directory: what
    [addDirToKitfile] adds to an empty manifest, the candidates it
    returns, and its error. *)
Definition summarize (env : Env) (d : DirEntry)
  : KitFile * list string * option dirError :=
  addDirToKitfile env (initKitfile None) (Name d) d.

Definition dirManifest (env : Env) (d : DirEntry) : KitFile :=
  fst (fst (summarize env d)).

Definition dirCandidates (env : Env) (d : DirEntry) : list string :=
  snd (fst (summarize env d)).

Definition dirFailure (env : Env) (d : DirEntry) : option dirError :=
  snd (summarize env d).

(** What one entry contributes to the accumulated state. *)
Definition entryUnprocessed (env : Env) (d : DirEntry) : list string :=
  match rootKindOf env d, dirFailure env d with
  | subdirectory, Some _ => [Name d]
  | _, _ => []
  end.

Definition entryCandidates (env : Env) (d : DirEntry) : list string :=
  match rootKindOf env d with
  | subdirectory => dirCandidates env d
  | typedFile fileTypeModel => [Name d]
  | _ => []
  end.

Definition entryMetadata (env : Env) (d : DirEntry) : list string :=
  match rootKindOf env d with
  | typedFile fileTypeMetadata => [Name d]
  | _ => []
  end.

Definition entryCode (env : Env) (d : DirEntry) : list Code :=
  match rootKindOf env d with
  | subdirectory => KitFile_Code (dirManifest env d)
  | _ => []
  end.

Definition entryDataSets (env : Env) (d : DirEntry) : list DataSet :=
  match rootKindOf env d with
  | subdirectory => KitFile_DataSets (dirManifest env d)
  | typedFile fileTypeDataset => [mkDataSet (Name d) ""]
  | _ => []
  end.

Definition entryDocs (env : Env) (d : DirEntry) : list Docs :=
  match rootKindOf env d with
  | subdirectory => KitFile_Docs (dirManifest env d)
  | readmeFile => [mkDocs (Name d) "Readme file"]
  | licenseFile => [mkDocs (Name d) "License file"]
  | typedFile fileTypeDocs => [mkDocs (Name d) ""]
  | _ => []
  end.

(** A top-level file that is code or of unknown type. *)
Definition entryCatchall (env : Env) (d : DirEntry) : bool :=
  match rootKindOf env d with
  | typedFile fileTypeUnknown | typedFile fileTypeCode => true
  | _ => false
  end.

(** The subdirectories whose summarization failed, in order. *)
Definition unprocessedOf (env : Env) (ds : list DirEntry) : list string :=
  flat_map (entryUnprocessed env) ds.

(** The model candidates of the whole tree, in discovery order. *)
Definition modelCandidates (env : Env) (ds : list DirEntry) : list string :=
  flat_map (entryCandidates env) ds.

(** The pending top-level metadata files, in encounter order. *)
Definition pendingMetadata (env : Env) (ds : list DirEntry) : list string :=
  flat_map (entryMetadata env) ds.

(** The Code, Dataset and Docs entries added during the pass. *)
Definition passCode (env : Env) (ds : list DirEntry) : list Code :=
  flat_map (entryCode env) ds.

Definition passDataSets (env : Env) (ds : list DirEntry) : list DataSet :=
  flat_map (entryDataSets env) ds.

Definition passDocs (env : Env) (ds : list DirEntry) : list Docs :=
  flat_map (entryDocs env) ds.

(** The catch-all flag after the pass. *)
Definition catchallFlag (env : Env) (ds : list DirEntry) : bool :=
  existsb (entryCatchall env) ds.

(** The license type detected by the pass that starts with [l]: the
    answer of [detectLicense] on the last license file, if any. *)
Definition passLicense (env : Env) (ds : list DirEntry) (l : string)
  : string :=
  fold_left
    (fun l d =>
       match rootKindOf env d with
       | licenseFile => fst (detectLicense env (Name d))
       | _ => l
       end) ds l.

(** What the specification says of a failed summarization: nothing but
    the list of unprocessed directories changes. *)
Definition onlyUnprocessedAppended (st : genState) (d : DirEntry)
  (st' : genState) : Prop :=
  st' = mkGenState (kitfile st) (includeCatchallSection st)
          (unprocessedDirPaths st ++ [Name d])
          (modelFiles st) (metadataPaths st) (detectedLicenseType st).

(* ================================================================== *)
(** * The size heuristic, in the words of the specification *)
(* ================================================================== *)

Definition sumSizes (sizes : list Z) : Z := fold_right Z.add 0%Z sizes.

(** The size of the largest candidate. *)
Definition maxSize (sizes : list Z) : Z := fold_right Z.max 0%Z sizes.

(** The integer mean of the sizes. *)
Definition meanSize (sizes : list Z) : Z :=
  (sumSizes sizes / Z.of_nat (List.length sizes))%Z.

(** mean + mean/2. *)
Definition dominanceThreshold (sizes : list Z) : Z :=
  (meanSize sizes + meanSize sizes / 2)%Z.

(** [i] is the first position of the largest size. *)
Definition firstLargestAt (sizes : list Z) (i : nat) : Prop :=
  nth_error sizes i = Some (maxSize sizes) /\
  forall j s, j < i -> nth_error sizes j = Some s -> (s < maxSize sizes)%Z.

(** The candidates with their sizes, as the filesystem reports them. *)
Definition sizesOf (env : Env) (paths : list string) (sizes : list Z) : Prop :=
  Forall2 (fun p s => StatSize env p = Some s) paths sizes.

(* ================================================================== *)
(** * License attachment, in the words of the specification *)
(* ================================================================== *)

(** The sections that can receive the detected license. *)
Inductive licenseTarget : Type :=
| onModel
| onDataset
| onCode
| onPackage.

Definition hasModel (k : KitFile) : bool :=
  match KitFile_Model k with Some _ => true | None => false end.

(** The strict precedence of the branches. *)
Definition chosenTarget (k : KitFile) (license : string) : licenseTarget :=
  if hasModel k && negb (license =? "")%string then onModel
  else if (List.length (KitFile_DataSets k) =? 1)%nat then onDataset
  else if (List.length (KitFile_Code k) =? 1)%nat then onCode
  else onPackage.

(** The license of the Model section, empty when there is none. *)
Definition modelLicense (k : KitFile) : string :=
  match KitFile_Model k with Some m => Model_License m | None => "" end.

(** The section [t] of [k] holds [license]. *)
Definition receives (k : KitFile) (t : licenseTarget) (license : string)
  : Prop :=
  match t with
  | onModel =>
      exists m, KitFile_Model k = Some m /\ Model_License m = license
  | onDataset => map DataSet_License (KitFile_DataSets k) = [license]
  | onCode => map Code_License (KitFile_Code k) = [license]
  | onPackage => Package_License (KitFile_Package k) = license
  end.

(** The section [t] of [k] holds no license (for the Package: it is the
    package [p] that the caller supplied, as it was). *)
Definition untouched (k : KitFile) (p : Package) (t : licenseTarget) : Prop :=
  match t with
  | onModel => modelLicense k = ""
  | onDataset => Forall (fun d => DataSet_License d = "") (KitFile_DataSets k)
  | onCode => Forall (fun c => Code_License c = "") (KitFile_Code k)
  | onPackage => KitFile_Package k = p
  end.

(** A subdirectory whose summarization failed. *)
Definition failedSubdir (env : Env) (d : DirEntry) : bool :=
  match rootKindOf env d, dirFailure env d with
  | subdirectory, Some _ => true
  | _, _ => false
  end.

(** The package section that [GenerateKitfile] starts with. *)
Definition suppliedPackage (packageOpt : option Package) : Package :=
  KitFile_Package (initKitfile packageOpt).

(** The manifest as the pass over the base directory leaves it. *)
Definition passKitfile (env : Env) (packageOpt : option Package)
  (ds : list DirEntry) : KitFile :=
  kitfile (rootPass env ds (initState packageOpt)).

(** The display name the specification gives a model: the filename of
    its path without the extension. *)
Definition displayName (path : string) : string :=
  TrimSuffix (Base path) (Ext (Base path)).

(* ================================================================== *)
(** * Example directory trees *)
(* ================================================================== *)

Fixpoint lookup {A : Type} (key : string) (table : list (string * A))
  : option A :=
  match table with
  | [] => None
  | (k, v) :: rest => if (k =? key)%string then Some v else lookup key rest
  end.

Definition file (n : string) : DirEntry := mkDirEntry n false.
Definition dir (n : string) : DirEntry := mkDirEntry n true.

(** The names for which the examples let [IsDefaultKitfileName] answer
    true. *)
Definition exampleKitfileNames : list string :=
  ["Kitfile"; "kitfile"; ".kitfile"].

(** A tree given by the listing of the base directory, the listings of
    its readable subdirectories, the sizes of the files that can be
    stat-ed and the scanner's matches for the files that can be read. *)
Definition tree (root : list DirEntry)
  (subdirs : list (string * list DirEntry))
  (sizes : list (string * Z))
  (licenses : list (string * list string)) : Env :=
  mkEnv (fun n => existsb (String.eqb n) exampleKitfileNames)
        (Some root)
        (fun p => lookup p subdirs)
        (fun p => lookup p sizes)
        (fun p => lookup p licenses).

(** A subdirectory with a model file and a source file. *)
Definition mixedTree : Env :=
  tree [dir "proj"]
       [("proj", [file "model.safetensors"; file "train.py"])]
       [] [].

(** A subdirectory with a model file and its configuration. *)
Definition modelDirTree : Env :=
  tree [dir "weights"]
       [("weights", [file "config.json"; file "model.safetensors";
                     file "tokenizer.json"])]
       [("weights/model.safetensors", 1000%Z);
        ("weights/config.json", 10%Z);
        ("weights/tokenizer.json", 20%Z)] [].


Definition k0 : KitFile := initKitfile None.

(** Candidates of sizes 100, 100, 310 and of sizes 100, 110, 120. *)
Definition sizedTree : Env :=
  tree [] []
       [("a.bin", 100%Z); ("b.bin", 100%Z); ("c.bin", 310%Z);
        ("x.bin", 100%Z); ("y.bin", 110%Z); ("z.bin", 120%Z)] [].

(** A model sharded into two files of the same size. *)
Definition shardsTree : Env :=
  tree [file "model-00001.safetensors"; file "model-00002.safetensors"]
       []
       [("model-00001.safetensors", 100%Z);
        ("model-00002.safetensors", 100%Z)] [].

(** A single model file and nothing else. *)
Definition singleModelTree : Env :=
  tree [file "llama.gguf"] [] [("llama.gguf", 4096%Z)] [].

(** A model with an adapter, a configuration file and a license file
    that the scanner matches with one license. *)
Definition licensedModelTree : Env :=
  tree [file "LICENSE"; file "adapter.bin"; file "config.json";
        file "model.gguf"]
       []
       [("adapter.bin", 10%Z); ("model.gguf", 1000%Z)]
       [("LICENSE", ["Apache-2.0"])].

(** Only a license file, matched with one license. *)
Definition licenseOnlyTree : Env :=
  tree [file "LICENSE"] [] [] [("LICENSE", ["MIT"])].

(** A configuration file and an archive, no model anywhere. *)
Definition metadataOnlyTree : Env :=
  tree [file "data.csv"; file "labels.json"; file "schema.yaml"] [] [] [].

(** Seven subdirectories, each holding one source file. *)
Definition sevenDirs : list DirEntry :=
  [dir "a"; dir "b"; dir "c"; dir "d"; dir "e"; dir "f"; dir "g"].

Definition sevenDirsTree : Env :=
  tree sevenDirs
       (map (fun d => (Name d, [file "main.py"])) sevenDirs)
       [] [].

(** A source directory, a directory that cannot be read and a directory
    of scripts. *)
Definition codeDirsTree : Env :=
  tree [dir "locked"; dir "scripts"; dir "src"]
       [("scripts", [file "run.sh"]); ("src", [file "main.go"])]
       [] [].

(** Two model files of which one cannot be stat-ed. *)
Definition brokenStatTree : Env :=
  tree [file "a.bin"; file "b.bin"] [] [("a.bin", 100%Z)] [].



(* ================================================================== *)
(** * Further notions *)
(* ================================================================== *)

(** A byte that is neither a dot nor a path separator. *)
Definition plainByte (c : ascii) : bool :=
  negb (IsPathSeparator c) && negb (Ascii.eqb c "."%char).

(** An extension: a dot followed by plain bytes. *)
Definition isExtension (s : string) : bool :=
  match s with
  | EmptyString => false
  | String c t =>
      Ascii.eqb c "."%char && forallb plainByte (list_ascii_of_string t)
  end.

(** The four suffix tables, in the order [determineFileType] consults
    them. *)
Definition suffixTables : list (list string) :=
  [modelWeightsSuffixes; metadataSuffixes; docsSuffixes; datasetSuffixes].

(** Some string is in both lists. *)
Definition overlap (a b : list string) : bool :=
  existsb (fun x => existsb (String.eqb x) b) a.

(** The environment with another listing of the base directory. *)
Definition withBaseDir (env : Env) (ds : list DirEntry) : Env :=
  mkEnv (IsDefaultKitfileName env) (Some ds) (ReadDir env) (StatSize env)
        (ScanFile env).

(** The entries of the base directory that are not skipped as
    Kitfiles. *)
Definition notKitfile (env : Env) (d : DirEntry) : bool :=
  negb (IsDefaultKitfileName env (Name d)).

(** Two environments answer alike what the pass over the base directory
    asks about the entry [d]: whether its name is a Kitfile name, the
    listing of [d] when it is a subdirectory that is summarized by its
    contents, the scan of [d] when it is a license file. *)
Definition agreeOn (env env' : Env) (d : DirEntry) : Prop :=
  IsDefaultKitfileName env (Name d) = IsDefaultKitfileName env' (Name d) /\
  (rootKindOf env d = subdirectory ->
   isSpecialDirName (Name d) = false ->
   ReadDir env (Name d) = ReadDir env' (Name d)) /\
  (rootKindOf env d = licenseFile ->
   ScanFile env (Name d) = ScanFile env' (Name d)).

(** What a call of [addDirToKitfile] may do to the manifest [k]. *)
Definition appendsOne (k : KitFile) (dirPath : string) (k' : KitFile)
  : Prop :=
  k' = k \/
  k' = set_Docs k (KitFile_Docs k ++ [mkDocs dirPath ""]) \/
  k' = set_DataSets k (KitFile_DataSets k ++ [mkDataSet dirPath ""]) \/
  k' = set_Code k (KitFile_Code k ++ [mkCode dirPath ""]).

(** Two license files: the first matches one license, the second
    matches two. *)
Definition twoLicensesTree : Env :=
  tree [file "LICENSE"; file "LICENSE.txt"; file "model.gguf"] [] []
       [("LICENSE", ["MIT"]); ("LICENSE.txt", ["MIT"; "Apache-2.0"])].

(** Documentation next to a source file. *)
Definition docsTree : Env :=
  tree [file "LICENSE"; file "README.md"; dir "docs"; file "guide.pdf";
        file "main.py"]
       [] [] [("LICENSE", ["MIT"])].

(** The tree [codeDirsTree] with other contents below src and a second
    level below scripts. *)
Definition codeDirsVariant : Env :=
  tree [dir "locked"; dir "scripts"; dir "src"]
       [("scripts", [file "run.sh"]); ("src", [file "model.bin"]);
        ("scripts/nested", [file "weights.bin"])]
       [("src/model.bin", 7%Z)] [].

(** The tree [modelDirTree] with its subdirectory listed in another
    order. *)
Definition modelDirShuffled : Env :=
  tree [dir "weights"]
       [("weights", [file "tokenizer.json"; file "model.safetensors";
                     file "config.json"])]
       [] [].

Definition examplePackage : Package := mkPackage "demo" "A demo" "".

(* ================================================================== *)
(** * The manifest before the license is attached *)
(* ================================================================== *)

(** Lines 72-185 of [GenerateKitfile]: the manifest as it stands at line
    187, where the license is attached. *)
Definition manifestBeforeLicense (env : Env) (packageOpt : option Package)
  (ds : list DirEntry) : result KitFile :=
  let st := rootPass env ds (initState packageOpt) in
  match assembleModel env st with
  | Err e => Err e
  | Ok k =>
      Ok (addCodeLayers k (includeCatchallSection st) (unprocessedDirPaths st))
  end.

(** Two manifests with the same sections and entries, licenses apart. *)
Definition sameSections (k0 k : KitFile) : Prop :=
  KitFile_ManifestVersion k = KitFile_ManifestVersion k0 /\
  Package_Name (KitFile_Package k) = Package_Name (KitFile_Package k0) /\
  Package_Description (KitFile_Package k)
    = Package_Description (KitFile_Package k0) /\
  match KitFile_Model k0, KitFile_Model k with
  | Some m0, Some m =>
      Model_Path m = Model_Path m0 /\ Model_Name m = Model_Name m0 /\
      Model_Parts m = Model_Parts m0
  | None, None => True
  | _, _ => False
  end /\
  map DataSet_Path (KitFile_DataSets k)
    = map DataSet_Path (KitFile_DataSets k0) /\
  KitFile_Docs k = KitFile_Docs k0 /\
  map Code_Path (KitFile_Code k) = map Code_Path (KitFile_Code k0).

(** The election as the specification states it, for candidates [paths]
    of sizes [sizes]. *)
Definition electedAsStated (env : Env) (k : KitFile) (paths : list string)
  (sizes : list Z) : Prop :=
  exists m,
    addModelToKitfile env k paths = Ok (set_Model k (Some m)) /\
    ((dominanceThreshold sizes < maxSize sizes)%Z ->
     exists i,
       firstLargestAt sizes i /\
       nth_error paths i = Some (Model_Path m) /\
       Model_Parts m =
         map mkModelPart
           (filter (fun p => negb (p =? Model_Path m)%string) paths)) /\
    ((maxSize sizes <= dominanceThreshold sizes)%Z ->
     nth_error paths 0 = Some (Model_Path m) /\
     Model_Parts m = map mkModelPart (tl paths)).

(** A small file and two files of 2^63-1 bytes. *)
Definition hugeSizes : list Z := [1; 2 ^ 63 - 1; 2 ^ 63 - 1]%Z.

Definition hugeSizesTree : Env :=
  tree [] []
       [("a.bin", 1%Z); ("b.bin", (2 ^ 63 - 1)%Z); ("c.bin", (2 ^ 63 - 1)%Z)]
       [].

(** A license file next to one dataset. *)
Definition datasetLicenseTree : Env :=
  tree [file "LICENSE"; file "data.csv"] [] [] [("LICENSE", ["MIT"])].

(** A license file next to a source directory. *)
Definition codeLicenseTree : Env :=
  tree [file "LICENSE"; dir "src"] [] [] [("LICENSE", ["MIT"])].

(** A license file next to one dataset and a source directory. *)
Definition datasetAndCodeTree : Env :=
  tree [file "LICENSE"; file "data.csv"; dir "src"] [] []
       [("LICENSE", ["MIT"])].

(* ================================================================== *)
(** * Properties of the string functions *)
(* ================================================================== *)

Section StringFacts.

Lemma length_append (p q : string) :
  String.length (p ++ q)%string = String.length p + String.length q.
Proof. induction p as [|c p IH]; simpl; [reflexivity | now rewrite IH]. Qed.

Lemma substring_0_length (q : string) :
  substring 0 (String.length q) q = q.
Proof. induction q as [|c q IH]; simpl; [reflexivity | now rewrite IH]. Qed.

Lemma substring_append_skip (p q : string) (m : nat) :
  substring (String.length p) m (p ++ q)%string = substring 0 m q.
Proof.
  induction p as [|c p IH]; simpl; [reflexivity | exact IH].
Qed.

Lemma substring_split (s : string) (n : nat) :
  n <= String.length s ->
  (substring 0 n s ++ substring n (String.length s - n) s)%string = s.
Proof.
  revert n; induction s as [|c s IH]; intros n Hn; simpl in *.
  - assert (n = 0) by lia; subst; reflexivity.
  - destruct n as [|n]; simpl.
    + now rewrite substring_0_length.
    + rewrite IH by lia; reflexivity.
Qed.

Lemma HasSuffix_spec (s suffix : string) :
  HasSuffix s suffix = true <-> isSuffixOf suffix s.
Proof.
  unfold HasSuffix, isSuffixOf; split.
  - intros H; apply andb_true_iff in H; destruct H as [Hlen Heq].
    apply Nat.leb_le in Hlen; apply String.eqb_eq in Heq.
    exists (substring 0 (String.length s - String.length suffix) s).
    pose proof (substring_split s (n := String.length s - String.length suffix))
      as Hs.
    replace (String.length s - (String.length s - String.length suffix))
      with (String.length suffix) in Hs by lia.
    rewrite Heq in Hs; symmetry; apply Hs; lia.
  - intros [p ->]; apply andb_true_iff; split.
    + apply Nat.leb_le; rewrite length_append; lia.
    + apply String.eqb_eq; rewrite length_append.
      replace (String.length p + String.length suffix - String.length suffix)
        with (String.length p) by lia.
      rewrite substring_append_skip; apply substring_0_length.
Qed.

Lemma anySuffix_spec (query : string) (suffixes : list string) :
  anySuffix query suffixes = true <-> matchesTable query suffixes.
Proof.
  unfold matchesTable; induction suffixes as [|x l IH]; simpl.
  - split; [discriminate | intros (? & [] & _)].
  - destruct (HasSuffix query x) eqn:E.
    + split; [intros _ | reflexivity].
      exists x; split; [now left | now apply HasSuffix_spec].
    + rewrite IH; split.
      * intros (y & Hy & Hs); exists y; split; [now right | exact Hs].
      * intros (y & [-> | Hy] & Hs).
        -- apply HasSuffix_spec in Hs; congruence.
        -- exists y; split; assumption.
Qed.

Lemma anySuffix_false (query : string) (suffixes : list string) :
  anySuffix query suffixes = false <-> ~ matchesTable query suffixes.
Proof.
  rewrite <- anySuffix_spec; destruct (anySuffix query suffixes);
    split; congruence.
Qed.

End StringFacts.

(* ================================================================== *)
(** * The suffix classifier *)
(* ================================================================== *)

Lemma determineFileType_not_Code (filename : string) :
  determineFileType filename <> fileTypeCode.
Proof.
  unfold determineFileType.
  repeat match goal with |- context [if ?b then _ else _] => destruct b end;
    discriminate.
Qed.

(** C7. For every filename, [determineFileType] consults the model-weight,
    metadata, documentation and dataset-archive tables in this order and
    answers with the category of the first table one of whose suffixes is
    the exact (case-sensitive) trailing character sequence of the name, and
    with Unknown when no table has one.  A name with a model suffix is a
    Model whatever else it matches, a metadata suffix included. *)
Theorem determineFileType_precedence (filename : string) :
  (matchesTable filename modelWeightsSuffixes ->
   determineFileType filename = fileTypeModel) /\
  (~ matchesTable filename modelWeightsSuffixes ->
   matchesTable filename metadataSuffixes ->
   determineFileType filename = fileTypeMetadata) /\
  (~ matchesTable filename modelWeightsSuffixes ->
   ~ matchesTable filename metadataSuffixes ->
   matchesTable filename docsSuffixes ->
   determineFileType filename = fileTypeDocs) /\
  (~ matchesTable filename modelWeightsSuffixes ->
   ~ matchesTable filename metadataSuffixes ->
   ~ matchesTable filename docsSuffixes ->
   matchesTable filename datasetSuffixes ->
   determineFileType filename = fileTypeDataset) /\
  (~ matchesTable filename modelWeightsSuffixes ->
   ~ matchesTable filename metadataSuffixes ->
   ~ matchesTable filename docsSuffixes ->
   ~ matchesTable filename datasetSuffixes ->
   determineFileType filename = fileTypeUnknown).
Proof.
  unfold determineFileType.
  repeat split; intros;
    repeat match goal with
      | H : matchesTable _ _ |- _ => apply anySuffix_spec in H; rewrite H
      | H : ~ matchesTable _ _ |- _ => apply anySuffix_false in H; rewrite H
      end; reflexivity.
Qed.

(* ================================================================== *)
(** * The directory summarizer *)
(* ================================================================== *)

Section Summarizer.

Variable dirPath : string.

Lemma childrenOf_cons (e : DirEntry) (es : list DirEntry) (t : fileType) :
  childrenOf dirPath (e :: es) t =
  if fileType_eqb (childType e) t
  then Join dirPath (Name e) :: childrenOf dirPath es t
  else childrenOf dirPath es t.
Proof.
  unfold childrenOf; simpl.
  destruct (fileType_eqb (childType e) t); reflexivity.
Qed.

Lemma sortEntries_fold (entries : list DirEntry) :
  forall mf c0 c1 c2 c3 c4 c5,
    fold_left (sortEntry dirPath) entries (mf, [c0; c1; c2; c3; c4; c5]) =
    (mf ++ childrenOf dirPath entries fileTypeModel,
     [c0 ++ childrenOf dirPath entries fileTypeModel;
      c1 ++ childrenOf dirPath entries fileTypeDataset;
      c2 ++ childrenOf dirPath entries fileTypeCode;
      c3 ++ childrenOf dirPath entries fileTypeDocs;
      c4 ++ childrenOf dirPath entries fileTypeMetadata;
      c5 ++ childrenOf dirPath entries fileTypeUnknown]).
Proof.
  induction entries as [|e es IH]; intros; simpl.
  - unfold childrenOf; simpl; now rewrite !app_nil_r.
  - rewrite !childrenOf_cons; unfold childType.
    destruct (IsDir e).
    + simpl; rewrite IH, <- !app_assoc; reflexivity.
    + destruct (determineFileType (Name e)); simpl;
        rewrite IH, <- !app_assoc; reflexivity.
Qed.

Lemma sortEntries_spec (entries : list DirEntry) :
  sortEntries dirPath entries =
  (childrenOf dirPath entries fileTypeModel,
   [childrenOf dirPath entries fileTypeModel;
    childrenOf dirPath entries fileTypeDataset;
    childrenOf dirPath entries fileTypeCode;
    childrenOf dirPath entries fileTypeDocs;
    childrenOf dirPath entries fileTypeMetadata;
    childrenOf dirPath entries fileTypeUnknown]).
Proof.
  unfold sortEntries, emptyContents; simpl; now rewrite sortEntries_fold.
Qed.

Lemma active_children (entries : list DirEntry) (t : fileType) :
  active entries t = (0 <? List.length (childrenOf dirPath entries t))%nat.
Proof.
  unfold active; induction entries as [|e es IH]; simpl.
  - reflexivity.
  - rewrite childrenOf_cons.
    destruct (fileType_eqb (childType e) t); simpl; [reflexivity | exact IH].
Qed.

Lemma children_nil_inactive (entries : list DirEntry) (t : fileType) :
  childrenOf dirPath entries t = [] -> active entries t = false.
Proof. intros H; rewrite active_children, H; reflexivity. Qed.

Lemma children_cons_active (entries : list DirEntry) (t : fileType) x l :
  childrenOf dirPath entries t = x :: l -> active entries t = true.
Proof. intros H; rewrite active_children, H; reflexivity. Qed.

End Summarizer.

(** The source, with its array indexed by file type and its sentinel
    [fileTypeUnknown], computes the summary of the specification. *)
Lemma addDirToKitfile_spec (env : Env) (k : KitFile)
  (dirPath : string) (d : DirEntry) (entries : list DirEntry) :
  isSpecialDirName (Name d) = false ->
  ReadDir env dirPath = Some entries ->
  addDirToKitfile env k dirPath d = summarizeSpec k dirPath entries.
Proof.
  unfold isSpecialDirName; intros Hn Hr.
  apply orb_false_iff in Hn; destruct Hn as [Hdocs Hcode].
  unfold addDirToKitfile; rewrite Hdocs, Hcode, Hr, sortEntries_spec.
  unfold summarizeSpec, activeCategories; simpl filter.
  destruct (childrenOf dirPath entries fileTypeModel) as [|m ms] eqn:EM;
    [rewrite ?(children_nil_inactive _ _ _ EM)
    | rewrite ?(children_cons_active _ _ _ EM)];
  (destruct (childrenOf dirPath entries fileTypeDataset) as [|a al] eqn:ED;
    [rewrite ?(children_nil_inactive _ _ _ ED)
    | rewrite ?(children_cons_active _ _ _ ED)]);
  (destruct (childrenOf dirPath entries fileTypeCode) as [|c cl] eqn:EC;
    [rewrite ?(children_nil_inactive _ _ _ EC)
    | rewrite ?(children_cons_active _ _ _ EC)]);
  (destruct (childrenOf dirPath entries fileTypeDocs) as [|o ol] eqn:EO;
    [rewrite ?(children_nil_inactive _ _ _ EO)
    | rewrite ?(children_cons_active _ _ _ EO)]);
  (destruct (childrenOf dirPath entries fileTypeUnknown) as [|u ul] eqn:EU;
    [rewrite ?(children_nil_inactive _ _ _ EU)
    | rewrite ?(children_cons_active _ _ _ EU)]);
  destruct (childrenOf dirPath entries fileTypeMetadata) as [|t tl];
  reflexivity.
Qed.

(** C3. For a subdirectory whose name is not special-cased and whose
    listing can be read, [addDirToKitfile] does what the specification
    says of the summarizer: every immediate child is classified (a nested
    directory as Unknown, without recursion); more than one active
    category other than Metadata gives the mixed-contents error; exactly
    one gives its verdict (Dataset and Docs append the directory path to
    their manifest list, Model returns the model-type then the
    metadata-type paths as candidates); none, or only Code or
    Unknown, gives the treat-as-Code error. *)
Theorem addDirToKitfile_summarizes (env : Env) (k : KitFile)
  (dirPath : string) (d : DirEntry) (entries : list DirEntry) :
  isSpecialDirName (Name d) = false ->
  ReadDir env dirPath = Some entries ->
  let r := addDirToKitfile env k dirPath d in
  r = summarizeSpec k dirPath entries /\
  (2 <= List.length (activeCategories entries) ->
   fst (fst r) = k /\ snd r = Some errMixedContent) /\
  (activeCategories entries = [fileTypeModel] ->
   r = (k,
        childrenOf dirPath entries fileTypeModel
          ++ childrenOf dirPath entries fileTypeMetadata,
        None)) /\
  (activeCategories entries = [fileTypeDataset] ->
   r = (set_DataSets k (KitFile_DataSets k ++ [mkDataSet dirPath ""]),
        [], None)) /\
  (activeCategories entries = [fileTypeDocs] ->
   r = (set_Docs k (KitFile_Docs k ++ [mkDocs dirPath ""]), [], None)) /\
  (activeCategories entries = [] \/
   activeCategories entries = [fileTypeCode] \/
   activeCategories entries = [fileTypeUnknown] ->
   r = (k, [], Some errHandleAsCode)).
Proof.
  intros Hn Hr r; subst r.
  rewrite (@addDirToKitfile_spec env k dirPath d entries Hn Hr).
  unfold summarizeSpec.
  split; [reflexivity|]; split.
  - destruct (activeCategories entries) as [|t [|t' l]]; simpl; try lia.
    intros _; destruct t; split; reflexivity.
  - repeat split.
    + intros ->; reflexivity.
    + intros ->; reflexivity.
    + intros ->; reflexivity.
    + intros [-> | [-> | ->]]; reflexivity.
Qed.


(* ================================================================== *)
(** * The pass over the base directory *)
(* ================================================================== *)

Section RootPass.

Variable env : Env.

(** [addDirToKitfile] only appends to the Docs, Code and DataSets of the
    manifest it is given; what it appends, the candidates and the error
    do not depend on that manifest. *)
Lemma addDirToKitfile_frame (k : KitFile) (d : DirEntry) :
  addDirToKitfile env k (Name d) d =
  (mkKitFile (KitFile_ManifestVersion k) (KitFile_Package k) (KitFile_Model k)
     (KitFile_DataSets k ++ KitFile_DataSets (dirManifest env d))
     (KitFile_Docs k ++ KitFile_Docs (dirManifest env d))
     (KitFile_Code k ++ KitFile_Code (dirManifest env d)),
   dirCandidates env d, dirFailure env d).
Proof.
  unfold dirManifest, dirCandidates, dirFailure, summarize, addDirToKitfile.
  destruct k as [v p m dsets docs code]; simpl.
  destruct (Name d =? "docs")%string; simpl;
    [now rewrite !app_nil_r|].
  destruct (isCodeDirName (Name d)); simpl; [now rewrite !app_nil_r|].
  destruct (ReadDir env (Name d)) as [entries|]; simpl;
    [|now rewrite !app_nil_r].
  destruct (sortEntries (Name d) entries) as [mf dc].
  destruct (reduceContents dc) as [overall mixed].
  destruct mixed; simpl; [now rewrite !app_nil_r|].
  destruct overall; simpl; now rewrite !app_nil_r.
Qed.

(** The manifest, the flag, the lists and the license after one round of
    the loop. *)
Lemma rootStep_spec (st : genState) (d : DirEntry) :
  rootStep env st d =
  mkGenState
    (mkKitFile (KitFile_ManifestVersion (kitfile st))
       (KitFile_Package (kitfile st)) (KitFile_Model (kitfile st))
       (KitFile_DataSets (kitfile st) ++ entryDataSets env d)
       (KitFile_Docs (kitfile st) ++ entryDocs env d)
       (KitFile_Code (kitfile st) ++ entryCode env d))
    (includeCatchallSection st || entryCatchall env d)
    (unprocessedDirPaths st ++ entryUnprocessed env d)
    (modelFiles st ++ entryCandidates env d)
    (metadataPaths st ++ entryMetadata env d)
    (passLicense env [d] (detectedLicenseType st)).
Proof.
  unfold rootStep, entryDataSets, entryDocs, entryCode, entryCatchall,
    entryUnprocessed, entryCandidates, entryMetadata, passLicense, rootKindOf.
  destruct st as [[v p m dsets docs code] flag un mf md lic]; simpl.
  destruct (IsDefaultKitfileName env (Name d)); simpl.
  { now rewrite !app_nil_r, orb_false_r. }
  destruct (IsDir d); simpl.
  { rewrite addDirToKitfile_frame; simpl.
    rewrite orb_false_r, app_nil_r.
    destruct (dirFailure env d); simpl; now rewrite ?app_nil_r. }
  destruct (isReadme (Name d)); simpl.
  { now rewrite !app_nil_r, orb_false_r. }
  destruct (isLicense (Name d)); simpl.
  { destruct (detectLicense env (Name d)) as [l e]; simpl.
    now rewrite !app_nil_r, orb_false_r. }
  destruct (determineFileType (Name d)); simpl;
    now rewrite ?app_nil_r, ?orb_false_r, ?orb_true_r.
Qed.

Lemma rootPass_spec (ds : list DirEntry) : forall st : genState,
  rootPass env ds st =
  mkGenState
    (mkKitFile (KitFile_ManifestVersion (kitfile st))
       (KitFile_Package (kitfile st)) (KitFile_Model (kitfile st))
       (KitFile_DataSets (kitfile st) ++ passDataSets env ds)
       (KitFile_Docs (kitfile st) ++ passDocs env ds)
       (KitFile_Code (kitfile st) ++ passCode env ds))
    (includeCatchallSection st || catchallFlag env ds)
    (unprocessedDirPaths st ++ unprocessedOf env ds)
    (modelFiles st ++ modelCandidates env ds)
    (metadataPaths st ++ pendingMetadata env ds)
    (passLicense env ds (detectedLicenseType st)).
Proof.
  unfold rootPass, passDataSets, passDocs, passCode, catchallFlag,
    unprocessedOf, modelCandidates, pendingMetadata, passLicense.
  induction ds as [|d ds IH]; intros st.
  - destruct st as [[v p m dsets docs code] flag un mf md lic]; simpl.
    now rewrite !app_nil_r, orb_false_r.
  - cbn [fold_left flat_map existsb].
    rewrite IH, rootStep_spec; simpl.
    now rewrite <- !app_assoc, orb_assoc.
Qed.

Lemma rootPass_init (ds : list DirEntry) (packageOpt : option Package) :
  rootPass env ds (initState packageOpt) =
  mkGenState
    (mkKitFile "1.0.0" (KitFile_Package (initKitfile packageOpt)) None
       (passDataSets env ds) (passDocs env ds) (passCode env ds))
    (catchallFlag env ds) (unprocessedOf env ds) (modelCandidates env ds)
    (pendingMetadata env ds) (passLicense env ds "").
Proof. rewrite rootPass_spec; reflexivity. Qed.

End RootPass.

(* ================================================================== *)
(** * Failed summarizations *)
(* ================================================================== *)

Lemma summarize_Some_entries (env : Env) (d : DirEntry) (e : dirError) :
  dirFailure env d = Some e ->
  isSpecialDirName (Name d) = false /\
  (e = errReadDirectory (Name d) /\ ReadDir env (Name d) = None \/
   e <> errReadDirectory (Name d) /\
   exists entries, ReadDir env (Name d) = Some entries).
Proof.
  unfold dirFailure, summarize, addDirToKitfile, isSpecialDirName.
  destruct (Name d =? "docs")%string; simpl; [discriminate|].
  destruct (isCodeDirName (Name d)); simpl; [discriminate|].
  destruct (ReadDir env (Name d)) as [entries|]; simpl.
  - intros H; split; [reflexivity|]; right; split; [|now exists entries].
    destruct (sortEntries (Name d) entries) as [mf dc].
    destruct (reduceContents dc) as [overall mixed].
    destruct mixed; [simpl in H; congruence|].
    destruct overall; simpl in H; congruence.
  - intros H; injection H as <-; split; [reflexivity|]; now left.
Qed.

(** The candidates that come with each error of the summarizer. *)
Lemma failed_summary_candidates (env : Env) (d : DirEntry) (e : dirError) :
  dirFailure env d = Some e ->
  match e with
  | errMixedContent =>
      exists entries,
        ReadDir env (Name d) = Some entries /\
        dirCandidates env d = childrenOf (Name d) entries fileTypeModel
  | _ => dirCandidates env d = []
  end.
Proof.
  intros H; destruct (summarize_Some_entries _ _ H) as [Hn Hr].
  unfold dirFailure in H; unfold dirCandidates.
  destruct Hr as [[-> Hr] | [Hne [entries Hr]]].
  - unfold summarize, addDirToKitfile in *.
    unfold isSpecialDirName in Hn; apply orb_false_iff in Hn.
    destruct Hn as [-> ->]; rewrite Hr; reflexivity.
  - unfold summarize in *.
    rewrite (@addDirToKitfile_spec env _ (Name d) d entries Hn Hr) in *.
    unfold summarizeSpec in *.
    destruct (activeCategories entries) as [|t [|t' l]].
    + simpl in H; injection H as <-; reflexivity.
    + destruct t; simpl in H; try discriminate; injection H as <-; reflexivity.
    + assert (e = errMixedContent) as ->.
      { destruct t; simpl in H; congruence. }
      exists entries; split; [assumption|].
      destruct t; reflexivity.
Qed.

(** C4 (as amended). When the summarization of a subdirectory fails, no
    section of the manifest changes and the path of the directory is
    appended to the unprocessed directories.  After a read error or a
    treat-as-Code outcome nothing else changes; after a mixed-contents
    outcome the model-type files of the directory are, in addition,
    appended to the model candidates. *)
Theorem rootStep_failed_summary (env : Env) (st : genState) (d : DirEntry)
  (e : dirError) :
  IsDefaultKitfileName env (Name d) = false ->
  IsDir d = true ->
  snd (addDirToKitfile env (kitfile st) (Name d) d) = Some e ->
  kitfile (rootStep env st d) = kitfile st /\
  includeCatchallSection (rootStep env st d) = includeCatchallSection st /\
  unprocessedDirPaths (rootStep env st d) = unprocessedDirPaths st ++ [Name d] /\
  metadataPaths (rootStep env st d) = metadataPaths st /\
  detectedLicenseType (rootStep env st d) = detectedLicenseType st /\
  match e with
  | errMixedContent =>
      exists entries,
        ReadDir env (Name d) = Some entries /\
        modelFiles (rootStep env st d) =
        modelFiles st ++ childrenOf (Name d) entries fileTypeModel
  | _ => modelFiles (rootStep env st d) = modelFiles st
  end.
Proof.
  intros Hk Hd He.
  rewrite addDirToKitfile_frame in He; simpl in He.
  pose proof (failed_summary_candidates _ _ He) as Hc.
  destruct (summarize_Some_entries _ _ He) as [Hn _].
  assert (Hm : dirManifest env d = initKitfile None).
  { unfold dirManifest, summarize, addDirToKitfile.
    unfold isSpecialDirName in Hn; apply orb_false_iff in Hn.
    destruct Hn as [-> ->].
    destruct (ReadDir env (Name d)) as [entries|] eqn:Hr; [|reflexivity].
    unfold dirFailure, summarize, addDirToKitfile in He.
    rewrite Hr in He.
    destruct (Name d =? "docs")%string; [discriminate|].
    destruct (isCodeDirName (Name d)); [discriminate|].
    destruct (sortEntries (Name d) entries) as [mf dc].
    destruct (reduceContents dc) as [overall mixed].
    destruct mixed; [reflexivity|].
    destruct overall; simpl in He; try discriminate; reflexivity. }
  rewrite rootStep_spec; simpl.
  unfold entryDataSets, entryDocs, entryCode, entryCatchall, entryUnprocessed,
    entryCandidates, entryMetadata, rootKindOf.
  rewrite Hk, Hd, He, Hm; simpl.
  rewrite !app_nil_r, orb_false_r.
  repeat split.
  - destruct st as [[v p m dsets docs code] flag un mf md lic]; reflexivity.
  - destruct e; try (rewrite Hc; now rewrite app_nil_r).
    destruct Hc as [entries [Hr Hc]]; exists entries; split; [assumption|].
    now rewrite Hc.
Qed.

(* ================================================================== *)
(** * The model assembler *)
(* ================================================================== *)

Section Assembler.

Local Open Scope Z_scope.

Lemma wrap_small (z : Z) : Int64.in_range z -> Int64.wrap z = z.
Proof.
  unfold Int64.in_range, Int64.wrap, Int64.min_int, Int64.max_int.
  intros H; rewrite Z.mod_small; lia.
Qed.

Lemma sumSizes_nonneg (sizes : list Z) :
  Forall (fun s => 0 <= s) sizes -> 0 <= sumSizes sizes.
Proof. induction 1; simpl; lia. Qed.

Lemma maxSize_nonneg (sizes : list Z) : 0 <= maxSize sizes.
Proof. induction sizes; simpl; lia. Qed.

Lemma fold_max_shift (l : list Z) (a b : Z) :
  fold_right Z.max (Z.max a b) l = Z.max b (fold_right Z.max a l).
Proof. induction l as [|x l IH]; simpl; [lia | rewrite IH; lia]. Qed.

Variable env : Env.

(** The loop over the candidates, when every stat succeeds: the largest
    size so far, the first file that has it, and the wrapped sum. *)
Lemma statLoop_ok (paths : list string) (sizes : list Z) :
  sizesOf env paths sizes ->
  forall lf ls avg,
  exists lf' ls',
    statLoop env paths (lf, ls, avg) =
      Ok (lf', ls', fold_left Int64.add sizes avg) /\
    ls' = fold_right Z.max ls sizes /\
    (ls' = ls /\ lf' = lf \/
     ls < ls' /\
     exists i, nth_error paths i = Some lf' /\
               nth_error sizes i = Some ls' /\
               forall j s, (j < i)%nat -> nth_error sizes j = Some s -> s < ls').
Proof.
  induction 1 as [|p s ps ss Hp Hps IH]; intros lf ls avg.
  - exists lf, ls; simpl; auto.
  - simpl; rewrite Hp.
    destruct (ls <? s) eqn:E.
    + apply Z.ltb_lt in E.
      destruct (IH p s (Int64.add avg s)) as (lf' & ls' & Heq & Hmax & Hcase).
      exists lf', ls'; split; [exact Heq|].
      assert (Hm : fold_right Z.max s ss = Z.max s (fold_right Z.max ls ss)).
      { rewrite <- fold_max_shift; f_equal; lia. }
      split; [lia|]; right.
      destruct Hcase as [[-> ->] | [Hlt (i & Hi1 & Hi2 & Hi3)]].
      * split; [lia|]; exists 0%nat; simpl; repeat split; intros; lia.
      * split; [lia|]; exists (S i); simpl; repeat split; try assumption.
        intros [|j] s0 Hj Hs0; simpl in Hs0.
        -- injection Hs0 as <-; lia.
        -- apply (Hi3 j); [lia | assumption].
    + apply Z.ltb_ge in E.
      destruct (IH lf ls (Int64.add avg s)) as (lf' & ls' & Heq & Hmax & Hcase).
      exists lf', ls'; split; [exact Heq|].
      assert (Hm : fold_right Z.max ls ss = Z.max s (fold_right Z.max ls ss)).
      { rewrite <- fold_max_shift; f_equal; lia. }
      split; [lia|].
      destruct Hcase as [[-> ->] | [Hlt (i & Hi1 & Hi2 & Hi3)]]; [now left|].
      right; split; [lia|]; exists (S i); simpl; repeat split; try assumption.
      intros [|j] s0 Hj Hs0; simpl in Hs0.
      * injection Hs0 as <-; lia.
      * apply (Hi3 j); [lia | assumption].
Qed.

(** Without overflow the wrapped sum is the sum. *)
Lemma fold_add_no_overflow (sizes : list Z) : forall avg,
  Forall (fun s => 0 <= s) sizes ->
  0 <= avg -> avg + sumSizes sizes <= Int64.max_int ->
  fold_left Int64.add sizes avg = avg + sumSizes sizes.
Proof.
  induction sizes as [|s ss IH]; intros avg Hpos Havg Hsum; simpl in *.
  - lia.
  - inversion Hpos as [|? ? Hs Hss]; subst.
    pose proof (sumSizes_nonneg Hss) as Hnn.
    unfold Int64.add at 2; rewrite wrap_small.
    + rewrite IH; try assumption; lia.
    + unfold Int64.in_range, Int64.min_int, Int64.max_int in *; lia.
Qed.

(** The mean and the threshold of the source are the mathematical ones
    when the sum of the sizes fits an int64. *)
Lemma average_no_overflow (sizes : list Z) :
  (2 <= List.length sizes)%nat ->
  Forall (fun s => 0 <= s) sizes ->
  sumSizes sizes <= Int64.max_int ->
  Int64.div (sumSizes sizes) (Z.of_nat (List.length sizes)) = meanSize sizes /\
  Int64.add (meanSize sizes) (Int64.div (meanSize sizes) 2) =
    dominanceThreshold sizes /\
  0 <= dominanceThreshold sizes.
Proof.
  intros Hlen Hpos Hsum.
  pose proof (sumSizes_nonneg Hpos) as Hnn.
  unfold dominanceThreshold, meanSize, Int64.div, Int64.add.
  set (n := Z.of_nat (List.length sizes)).
  assert (Hn : 2 <= n) by (unfold n; lia).
  set (t := sumSizes sizes) in *.
  assert (Hq : t ÷ n = t / n) by (apply Z.quot_div_nonneg; lia).
  assert (Hm0 : 0 <= t / n) by (apply Z.div_pos; lia).
  assert (Hm1 : t / n <= t / 2).
  { apply Z.div_le_compat_l; lia. }
  assert (Hm2 : 2 * (t / 2) <= t).
  { apply Z.mul_div_le; lia. }
  rewrite Hq.
  assert (Hq2 : (t / n) ÷ 2 = (t / n) / 2) by (apply Z.quot_div_nonneg; lia).
  assert (Hh0 : 0 <= (t / n) / 2) by (apply Z.div_pos; lia).
  assert (Hh1 : 2 * ((t / n) / 2) <= t / n) by (apply Z.mul_div_le; lia).
  unfold Int64.max_int in Hsum.
  rewrite (wrap_small (z := t / n))
    by (unfold Int64.in_range, Int64.min_int, Int64.max_int; lia).
  rewrite Hq2.
  rewrite (wrap_small (z := (t / n) / 2))
    by (unfold Int64.in_range, Int64.min_int, Int64.max_int; lia).
  rewrite wrap_small
    by (unfold Int64.in_range, Int64.min_int, Int64.max_int; lia).
  repeat split; lia.
Qed.

End Assembler.

Lemma filter_absent (x : string) (l : list string) :
  ~ In x l -> filter (fun p => negb (p =? x)%string) l = l.
Proof.
  induction l as [|a l IH]; simpl; intros H; [reflexivity|].
  destruct (String.eqb_spec a x) as [->|Hne]; simpl.
  - exfalso; apply H; now left.
  - rewrite IH; [reflexivity | intros Hin; apply H; now right].
Qed.

(** Among distinct paths, leaving out the paths equal to the one at
    position [i] removes exactly that position. *)
Lemma filter_other_NoDup (paths : list string) : forall (i : nat) (x : string),
  NoDup paths -> nth_error paths i = Some x ->
  filter (fun p => negb (p =? x)%string) paths =
  firstn i paths ++ skipn (S i) paths.
Proof.
  induction paths as [|a l IH]; intros i x Hnd Hi.
  - destruct i; discriminate.
  - inversion Hnd as [|? ? Ha Hl]; subst.
    destruct i as [|i]; simpl in *.
    + injection Hi as ->.
      rewrite String.eqb_refl; simpl; now apply filter_absent.
    + destruct (String.eqb_spec a x) as [->|Hne]; simpl.
      * exfalso; apply Ha; eapply nth_error_In; eassumption.
      * f_equal; now apply IH.
Qed.

(** C1 (as amended). For two or more candidates whose sizes the
    filesystem reports, the sum of the sizes being at most 2^63-1 (the
    int64 in which the source adds them), the assembler
    compares the size of the largest candidate with mean + mean/2, the
    mean being the integer mean.  When the largest size is strictly
    greater, the first candidate of that size is the Model path and the
    parts are all the other candidates in discovery order; otherwise the
    first candidate is the Model path and the remaining candidates are
    the parts in order. *)
Theorem addModelToKitfile_elects (env : Env) (k : KitFile)
  (paths : list string) (sizes : list Z) :
  2 <= List.length paths ->
  sizesOf env paths sizes ->
  Forall (fun s => (0 <= s)%Z) sizes ->
  (sumSizes sizes <= Int64.max_int)%Z ->
  exists m,
    addModelToKitfile env k paths = Ok (set_Model k (Some m)) /\
    ((dominanceThreshold sizes < maxSize sizes)%Z ->
     exists i,
       firstLargestAt sizes i /\
       nth_error paths i = Some (Model_Path m) /\
       Model_Parts m =
         map mkModelPart
           (filter (fun p => negb (p =? Model_Path m)%string) paths) /\
       (NoDup paths ->
        Model_Parts m = map mkModelPart (firstn i paths ++ skipn (S i) paths)))
    /\
    ((maxSize sizes <= dominanceThreshold sizes)%Z ->
     nth_error paths 0 = Some (Model_Path m) /\
     Model_Parts m = map mkModelPart (tl paths)).
Proof.
  intros Hlen Hsz Hpos Hsum.
  assert (Hlen' : List.length sizes = List.length paths).
  { clear -Hsz; induction Hsz; simpl; congruence. }
  destruct (statLoop_ok Hsz "" 0%Z 0%Z) as (lf & ls & Heq & Hmax & Hcase).
  rewrite fold_add_no_overflow in Heq by (assumption || lia).
  destruct (@average_no_overflow sizes) as (Hmean & Hthr & Hthr0);
    try assumption; [lia|].
  fold (maxSize sizes) in Hmax; subst ls.
  rewrite Hlen' in Hmean.
  destruct paths as [|p1 [|p2 rest]]; simpl in Hlen; try lia.
  unfold addModelToKitfile; rewrite Heq.
  change (0 + sumSizes sizes)%Z with (sumSizes sizes).
  rewrite Hmean, Hthr.
  destruct (dominanceThreshold sizes <? maxSize sizes)%Z eqn:E.
  - apply Z.ltb_lt in E.
    eexists; split; [reflexivity|]; simpl Model_Path; simpl Model_Parts.
    split; [intros _ | intros; lia].
    destruct Hcase as [[H0 _] | [_ (i & Hi1 & Hi2 & Hi3)]]; [lia|].
    exists i; repeat split; try assumption.
    intros Hnd; unfold partsExcept; f_equal.
    now apply filter_other_NoDup.
  - apply Z.ltb_ge in E.
    eexists; split; [reflexivity|]; simpl.
    split; [intros; lia | intros _; split; reflexivity].
Qed.

(* ================================================================== *)
(** * The phases after the pass *)
(* ================================================================== *)

Section Phases.

Variable env : Env.



Lemma addModelToKitfile_ok_shape (k k' : KitFile) (paths : list string) :
  addModelToKitfile env k paths = Ok k' ->
  paths <> [] ->
  exists m, k' = set_Model k (Some m) /\ Model_License m = "".
Proof.
  destruct paths as [|p1 [|p2 rest]]; intros H Hne; [congruence | |].
  - simpl in H; injection H as <-; eexists; split; reflexivity.
  - unfold addModelToKitfile in H.
    destruct (statLoop env (p1 :: p2 :: rest) ("", 0%Z, 0%Z))
      as [[[lf ls] avg]|e]; [|discriminate].
    destruct (_ <? _)%Z in H; injection H as <-;
      eexists; split; reflexivity.
Qed.

(** The manifest just before the license is attached. *)
Lemma GenerateKitfile_shape (packageOpt : option Package)
  (ds : list DirEntry) (k : KitFile) :
  ReadBaseDir env = Some ds ->
  GenerateKitfile env packageOpt = Ok k ->
  exists k2,
    k = attachLicense k2 (passLicense env ds "") /\
    KitFile_Package k2 = suppliedPackage packageOpt /\
    KitFile_Code k2 =
      (if catchallFlag env ds
          || (5 <? List.length (unprocessedOf env ds))%nat
       then [mkCode "." ""]
       else passCode env ds
              ++ map (fun p => mkCode p "") (unprocessedOf env ds)) /\
    (modelCandidates env ds = [] ->
     KitFile_Model k2 = None /\
     KitFile_DataSets k2 =
       passDataSets env ds
         ++ map (fun p => mkDataSet p "") (pendingMetadata env ds)) /\
    (modelCandidates env ds <> [] ->
     exists m1,
       addModelToKitfile env (passKitfile env packageOpt ds)
         (modelCandidates env ds)
       = Ok (set_Model (passKitfile env packageOpt ds) (Some m1)) /\
       Model_License m1 = "" /\
       KitFile_Model k2 =
         Some (mkModel (Model_Path m1) (Model_Name m1) ""
                 (Model_Parts m1
                    ++ map mkModelPart (pendingMetadata env ds))) /\
       KitFile_DataSets k2 = passDataSets env ds).
Proof.
  intros Hr Hg; unfold GenerateKitfile in Hg; rewrite Hr in Hg.
  unfold passKitfile; rewrite rootPass_init in *.
  unfold assembleModel in Hg; simpl in Hg.
  destruct (modelCandidates env ds) as [|c cs] eqn:Hc.
  - injection Hg as <-; eexists; split; [reflexivity|].
    simpl; unfold addCodeLayers; simpl.
    destruct (catchallFlag env ds || _); simpl;
      (repeat split; try reflexivity; congruence).
  - destruct (addModelToKitfile env _ (c :: cs)) as [k1|e] eqn:Ha;
      [|discriminate].
    injection Hg as <-.
    destruct (addModelToKitfile_ok_shape _ Ha) as (m1 & -> & Hl);
      [discriminate|].
    eexists; split; [reflexivity|].
    unfold addCodeLayers, appendModelParts; simpl.
    destruct (catchallFlag env ds || _); simpl;
      (split; [reflexivity|]; split; [reflexivity|];
       split; [congruence|]; intros _; exists m1; rewrite Hl;
       repeat split; reflexivity).
Qed.

End Phases.

(* ================================================================== *)
(** * What the summary of a subdirectory adds to the manifest *)
(* ================================================================== *)

Lemma dirManifest_Code (env : Env) (d : DirEntry) :
  KitFile_Code (dirManifest env d) =
  if isCodeDirName (Name d) then [mkCode (Name d) ""] else [].
Proof.
  unfold dirManifest, summarize, addDirToKitfile.
  destruct (String.eqb_spec (Name d) "docs") as [->|_]; [reflexivity|].
  destruct (isCodeDirName (Name d)); [reflexivity|].
  destruct (ReadDir env (Name d)) as [entries|]; [|reflexivity].
  destruct (sortEntries (Name d) entries) as [mf dc].
  destruct (reduceContents dc) as [overall mixed].
  destruct mixed; [reflexivity|]; destruct overall; reflexivity.
Qed.

Lemma dirManifest_DataSets (env : Env) (d : DirEntry) :
  KitFile_DataSets (dirManifest env d) = [] \/
  KitFile_DataSets (dirManifest env d) = [mkDataSet (Name d) ""].
Proof.
  unfold dirManifest, summarize, addDirToKitfile.
  destruct (Name d =? "docs")%string; [now left|].
  destruct (isCodeDirName (Name d)); [now left|].
  destruct (ReadDir env (Name d)) as [entries|]; [|now left].
  destruct (sortEntries (Name d) entries) as [mf dc].
  destruct (reduceContents dc) as [overall mixed].
  destruct mixed; [now left|]; destruct overall; simpl; auto.
Qed.

Lemma dirFailure_special (env : Env) (d : DirEntry) :
  isSpecialDirName (Name d) = true -> dirFailure env d = None.
Proof.
  unfold isSpecialDirName, dirFailure, summarize, addDirToKitfile.
  destruct (Name d =? "docs")%string; [reflexivity|]; simpl.
  intros ->; reflexivity.
Qed.

Lemma passCode_no_license (env : Env) (ds : list DirEntry) :
  Forall (fun c => Code_License c = "") (passCode env ds).
Proof.
  apply Forall_forall; intros c Hc.
  apply in_flat_map in Hc; destruct Hc as (d & _ & Hc).
  unfold entryCode in Hc; destruct (rootKindOf env d); try contradiction.
  rewrite dirManifest_Code in Hc.
  destruct (isCodeDirName (Name d)); [|contradiction].
  destruct Hc as [<-|[]]; reflexivity.
Qed.

Lemma passDataSets_no_license (env : Env) (ds : list DirEntry) :
  Forall (fun x => DataSet_License x = "") (passDataSets env ds).
Proof.
  apply Forall_forall; intros x Hx.
  apply in_flat_map in Hx; destruct Hx as (d & _ & Hx).
  unfold entryDataSets in Hx.
  destruct (rootKindOf env d) as [| | | |t]; try contradiction.
  - destruct (dirManifest_DataSets env d) as [E|E]; rewrite E in Hx.
    + contradiction.
    + destruct Hx as [<-|[]]; reflexivity.
  - destruct t; try contradiction; destruct Hx as [<-|[]]; reflexivity.
Qed.

(** The entries of the Code section that the pass adds are the
    subdirectories named src, pkg, lib or build. *)
Lemma passCode_origin (env : Env) (ds : list DirEntry) (c : Code) :
  In c (passCode env ds) ->
  exists d, In d ds /\ IsDir d = true /\ Name d = Code_Path c /\
            isCodeDirName (Name d) = true.
Proof.
  intros Hc; apply in_flat_map in Hc; destruct Hc as (d & Hd & Hc).
  unfold entryCode in Hc.
  destruct (rootKindOf env d) eqn:Hk; try contradiction.
  rewrite dirManifest_Code in Hc.
  destruct (isCodeDirName (Name d)) eqn:Hn; [|contradiction].
  destruct Hc as [<-|[]].
  exists d; repeat split; try assumption.
  unfold rootKindOf in Hk.
  destruct (IsDefaultKitfileName env (Name d)); [discriminate|].
  destruct (IsDir d); [reflexivity|].
  destruct (isReadme (Name d)); [discriminate|].
  destruct (isLicense (Name d)); discriminate.
Qed.

Lemma unprocessedOf_filter (env : Env) (ds : list DirEntry) :
  unprocessedOf env ds = map Name (filter (failedSubdir env) ds).
Proof.
  unfold unprocessedOf; induction ds as [|d ds IH]; simpl; [reflexivity|].
  rewrite IH; unfold entryUnprocessed, failedSubdir.
  destruct (rootKindOf env d); try reflexivity.
  destruct (dirFailure env d); reflexivity.
Qed.

Lemma failedSubdir_IsDir (env : Env) (d : DirEntry) :
  failedSubdir env d = true -> IsDir d = true.
Proof.
  unfold failedSubdir, rootKindOf.
  destruct (IsDefaultKitfileName env (Name d)); [discriminate|].
  destruct (IsDir d); [reflexivity|].
  destruct (isReadme (Name d)); [discriminate|].
  destruct (isLicense (Name d)); discriminate.
Qed.

(* ================================================================== *)
(** * Attaching the license *)
(* ================================================================== *)

Lemma attachLicense_Code_paths (k : KitFile) (l : string) :
  map Code_Path (KitFile_Code (attachLicense k l)) =
  map Code_Path (KitFile_Code k).
Proof.
  unfold attachLicense.
  destruct (KitFile_Model k) as [m|], (l =? "")%string,
    (KitFile_DataSets k) as [|x [|x' xs]],
    (KitFile_Code k) as [|c [|c' cs]] eqn:E; simpl; rewrite ?E; reflexivity.
Qed.

Lemma attachLicense_DataSet_paths (k : KitFile) (l : string) :
  map DataSet_Path (KitFile_DataSets (attachLicense k l)) =
  map DataSet_Path (KitFile_DataSets k).
Proof.
  unfold attachLicense.
  destruct (KitFile_Model k) as [m|], (l =? "")%string,
    (KitFile_DataSets k) as [|x [|x' xs]] eqn:E,
    (KitFile_Code k) as [|c [|c' cs]]; simpl; rewrite ?E; reflexivity.
Qed.

Lemma attachLicense_Model (k : KitFile) (l : string) :
  match KitFile_Model k with
  | None => KitFile_Model (attachLicense k l) = None
  | Some m =>
      exists m',
        KitFile_Model (attachLicense k l) = Some m' /\
        Model_Path m' = Model_Path m /\ Model_Name m' = Model_Name m /\
        Model_Parts m' = Model_Parts m
  end.
Proof.
  unfold attachLicense.
  destruct (KitFile_Model k) as [m|] eqn:E, (l =? "")%string,
    (KitFile_DataSets k) as [|x [|x' xs]],
    (KitFile_Code k) as [|c [|c' cs]]; simpl; rewrite ?E;
    try reflexivity; eexists; repeat split; reflexivity.
Qed.

(** The branch taken by the license attachment on a manifest whose
    sections hold no license yet. *)
Lemma attachLicense_spec (k : KitFile) (l : string) :
  untouched k (KitFile_Package k) onModel ->
  untouched k (KitFile_Package k) onDataset ->
  untouched k (KitFile_Package k) onCode ->
  let k' := attachLicense k l in
  let t := chosenTarget k' l in
  t = chosenTarget k l /\
  receives k' t l /\
  (Package_Name (KitFile_Package k') = Package_Name (KitFile_Package k) /\
   Package_Description (KitFile_Package k') =
     Package_Description (KitFile_Package k)) /\
  forall t', t' <> t -> untouched k' (KitFile_Package k) t'.
Proof.
  unfold untouched, modelLicense, chosenTarget, hasModel, attachLicense,
    receives.
  destruct k as [v p m dsets code_docs code]; simpl.
  intros Hm Hd Hc.
  destruct m as [m|]; simpl;
    destruct (l =? "")%string eqn:El; simpl;
    destruct dsets as [|x [|x' xs]]; simpl;
    destruct code as [|c [|c' cs]]; simpl;
    (split; [reflexivity|]);
    (split; [try reflexivity; try (eexists; split; reflexivity)|]);
    (split; [split; reflexivity|]);
    intros t' Ht'; destruct t'; simpl; try congruence; auto;
    try (apply String.eqb_eq in El; subst l);
    repeat constructor.
Qed.

(* ================================================================== *)
(** * Properties of the generated manifest *)
(* ================================================================== *)

Lemma manifestBeforeLicense_shape (env : Env)
  (packageOpt : option Package) (ds : list DirEntry) (k2 : KitFile) :
  manifestBeforeLicense env packageOpt ds = Ok k2 ->
  KitFile_Package k2 = suppliedPackage packageOpt /\
  Forall (fun c => Code_License c = "") (KitFile_Code k2) /\
  Forall (fun x => DataSet_License x = "") (KitFile_DataSets k2) /\
  modelLicense k2 = "".
Proof.
  unfold manifestBeforeLicense; rewrite rootPass_init.
  unfold assembleModel; simpl; intros H.
  assert (Hcode : forall k1 : KitFile,
            Forall (fun c => Code_License c = "") (KitFile_Code k1) ->
            Forall (fun c => Code_License c = "")
              (KitFile_Code (addCodeLayers k1 (catchallFlag env ds)
                               (unprocessedOf env ds)))).
  { intros k1 Hk1; unfold addCodeLayers.
    destruct (catchallFlag env ds || _); simpl; [repeat constructor|].
    apply Forall_app; split; [exact Hk1|].
    apply Forall_forall; intros x Hx; apply in_map_iff in Hx.
    destruct Hx as (p & <- & _); reflexivity. }
  assert (Hkeep : forall k1 : KitFile,
            let k' := addCodeLayers k1 (catchallFlag env ds)
                        (unprocessedOf env ds) in
            KitFile_Package k' = KitFile_Package k1 /\
            KitFile_DataSets k' = KitFile_DataSets k1 /\
            KitFile_Model k' = KitFile_Model k1).
  { intros k1; unfold addCodeLayers.
    destruct (catchallFlag env ds || _); simpl; repeat split. }
  destruct (modelCandidates env ds) as [|c cs].
  - injection H as <-.
    match goal with
    | |- context [addCodeLayers ?k1 _ _] =>
        destruct (Hkeep k1) as (Hp & Hd & Hm);
        pose proof (Hcode k1 (passCode_no_license env ds)) as Hc
    end.
    unfold modelLicense; rewrite Hp, Hd, Hm; simpl.
    repeat split; try assumption.
    apply Forall_app; split; [apply passDataSets_no_license|].
    apply Forall_forall; intros x Hx; apply in_map_iff in Hx.
    destruct Hx as (p & <- & _); reflexivity.
  - match type of H with
    | match (match ?a with _ => _ end) with _ => _ end = _ =>
        destruct a as [k1|e] eqn:Ha
    end; [|discriminate].
    injection H as <-.
    destruct (@addModelToKitfile_ok_shape env _ k1 (c :: cs) Ha)
      as (m & -> & Hl); [discriminate|].
    match goal with
    | |- context [addCodeLayers ?k1 _ _] =>
        destruct (Hkeep k1) as (Hp & Hd & Hm);
        pose proof (Hcode k1 (passCode_no_license env ds)) as Hc
    end.
    unfold modelLicense; rewrite Hp, Hd, Hm; simpl.
    repeat split; try assumption.
    apply passDataSets_no_license.
Qed.

Lemma attachLicense_sameSections (k : KitFile) (l : string) :
  sameSections k (attachLicense k l).
Proof.
  unfold sameSections, attachLicense.
  destruct k as [v p m dsets docs code]; simpl.
  destruct m as [m|]; simpl;
    destruct (l =? "")%string; simpl;
    destruct dsets as [|x [|x' xs]]; simpl;
    destruct code as [|c [|c' cs]]; simpl;
    repeat split; reflexivity.
Qed.

(** C2. At the end of a successful generation one section is chosen for
    the detected license, by strict precedence over the manifest as it
    stands before the attachment: the Model when there is one and a
    license was detected; otherwise the only Dataset entry; otherwise the
    only Code entry; otherwise the Package.  The returned manifest has
    the sections and entries of the manifest before the attachment; its
    chosen section holds the detected license, every other section among
    Model, Datasets and Code holds none, and the Package is the supplied
    one unless it is the chosen section. *)
Theorem license_attached_once (env : Env) (packageOpt : option Package)
  (ds : list DirEntry) (k : KitFile) :
  ReadBaseDir env = Some ds ->
  GenerateKitfile env packageOpt = Ok k ->
  exists k0,
    manifestBeforeLicense env packageOpt ds = Ok k0 /\
    sameSections k0 k /\
    let license := passLicense env ds "" in
    let t := chosenTarget k0 license in
    chosenTarget k license = t /\
    receives k t license /\
    forall t', t' <> t -> untouched k (suppliedPackage packageOpt) t'.
Proof.
  intros Hr Hg.
  unfold GenerateKitfile in Hg; rewrite Hr in Hg.
  destruct (assembleModel env (rootPass env ds (initState packageOpt)))
    as [k1|e] eqn:Ha; [|discriminate].
  injection Hg as <-.
  set (k0 := addCodeLayers k1
               (includeCatchallSection
                  (rootPass env ds (initState packageOpt)))
               (unprocessedDirPaths
                  (rootPass env ds (initState packageOpt)))).
  assert (Hb : manifestBeforeLicense env packageOpt ds = Ok k0).
  { unfold manifestBeforeLicense; rewrite Ha; reflexivity. }
  exists k0; split; [exact Hb|].
  split; [apply attachLicense_sameSections|].
  destruct (@manifestBeforeLicense_shape env packageOpt ds k0 Hb)
    as (Hp & Hc & Hd & Hm).
  assert (Hl : detectedLicenseType (rootPass env ds (initState packageOpt))
               = passLicense env ds "")
    by (rewrite rootPass_init; reflexivity).
  rewrite Hl.
  destruct (@attachLicense_spec k0 (passLicense env ds "") Hm Hd Hc)
    as (Ht & Hrec & _ & Hun).
  cbv zeta; rewrite <- Ht, <- Hp.
  repeat split; assumption.
Qed.

(** C6. In the manifest of a successful generation: when a top-level file
    is code or of unknown type, or more than five subdirectories are
    unprocessed, the Code section is the single entry ".", whatever was
    added to it before; otherwise it is the entries added during the pass
    followed by one entry per unprocessed directory, in order.  Seven
    subdirectories that fail summarization therefore give the single
    entry ".". *)
Theorem code_section_layout (env : Env) (packageOpt : option Package)
  (ds : list DirEntry) (k : KitFile) :
  ReadBaseDir env = Some ds ->
  GenerateKitfile env packageOpt = Ok k ->
  (catchallFlag env ds = true \/ 5 < List.length (unprocessedOf env ds) ->
   map Code_Path (KitFile_Code k) = ["."]) /\
  (catchallFlag env ds = false ->
   List.length (unprocessedOf env ds) <= 5 ->
   map Code_Path (KitFile_Code k) =
   map Code_Path (passCode env ds) ++ unprocessedOf env ds) /\
  (List.length (filter (failedSubdir env) ds) = 7 ->
   map Code_Path (KitFile_Code k) = ["."]).
Proof.
  intros Hr Hg.
  destruct (@GenerateKitfile_shape env packageOpt ds k Hr Hg) as (k2 & -> & _ & Hcode & _).
  rewrite attachLicense_Code_paths, Hcode.
  assert (Hbig : 5 < List.length (unprocessedOf env ds) ->
                 (5 <? List.length (unprocessedOf env ds))%nat = true)
    by (intros; now apply Nat.ltb_lt).
  repeat split.
  - intros [-> | H]; [reflexivity|].
    rewrite (Hbig H), orb_true_r; reflexivity.
  - intros -> H.
    replace (5 <? List.length (unprocessedOf env ds))%nat with false
      by (symmetry; apply Nat.ltb_ge; lia).
    simpl; rewrite map_app, map_map; simpl; now rewrite map_id.
  - intros H; rewrite Hbig, orb_true_r; [reflexivity|].
    rewrite unprocessedOf_filter, length_map; lia.
Qed.


(** C9. In the manifest of a successful generation: when the tree has
    at least one model candidate, the Model is the one the assembler
    elects from the candidates, with the pending top-level metadata files
    appended to its parts in encounter order, and no Dataset entry is
    added for them; when the tree has no model candidate there is no
    Model, and every pending metadata file is a Dataset entry of its own,
    in encounter order, after the entries of the pass. *)
Theorem pending_metadata_placement (env : Env) (packageOpt : option Package)
  (ds : list DirEntry) (k : KitFile) :
  ReadBaseDir env = Some ds ->
  GenerateKitfile env packageOpt = Ok k ->
  (modelCandidates env ds <> [] ->
   exists m1 m,
     addModelToKitfile env (passKitfile env packageOpt ds)
       (modelCandidates env ds)
     = Ok (set_Model (passKitfile env packageOpt ds) (Some m1)) /\
     KitFile_Model k = Some m /\
     Model_Path m = Model_Path m1 /\
     Model_Name m = Model_Name m1 /\
     Model_Parts m =
       Model_Parts m1 ++ map mkModelPart (pendingMetadata env ds) /\
     map DataSet_Path (KitFile_DataSets k) =
       map DataSet_Path (passDataSets env ds)) /\
  (modelCandidates env ds = [] ->
   KitFile_Model k = None /\
   map DataSet_Path (KitFile_DataSets k) =
     map DataSet_Path (passDataSets env ds) ++ pendingMetadata env ds).
Proof.
  intros Hr Hg.
  destruct (@GenerateKitfile_shape env packageOpt ds k Hr Hg) as (k2 & -> & _ & _ & Hnone & Hsome).
  pose proof (attachLicense_Model k2 (passLicense env ds "")) as Hmodel.
  rewrite attachLicense_DataSet_paths.
  split.
  - intros Hne; destruct (Hsome Hne) as (m1 & Ha & _ & Hm & Hd).
    rewrite Hm in Hmodel; destruct Hmodel as (m & Hk & Hpath & Hname & Hparts).
    exists m1, m; rewrite Hd; repeat split; assumption.
  - intros He; destruct (Hnone He) as [Hm Hd].
    rewrite Hm in Hmodel; split; [assumption|].
    rewrite Hd, map_app, map_map; simpl; now rewrite map_id.
Qed.

(** C10. The suffix classifier never answers Code, so no file of the
    base directory or of a summarized subdirectory is given the Code
    category; and in the manifest of a
    successful generation every entry of the Code section has for path
    either "." or the name of a subdirectory of the base directory that
    is named src, pkg, lib or build, or whose summarization failed. *)
Theorem code_entries_are_directories (env : Env)
  (packageOpt : option Package) (ds : list DirEntry) (k : KitFile) :
  ReadBaseDir env = Some ds ->
  GenerateKitfile env packageOpt = Ok k ->
  (forall filename, determineFileType filename <> fileTypeCode) /\
  (forall e, childType e <> fileTypeCode) /\
  (forall d, In d ds -> rootKindOf env d <> typedFile fileTypeCode) /\
  forall c, In c (KitFile_Code k) ->
    Code_Path c = "." \/
    exists d, In d ds /\ IsDir d = true /\ Name d = Code_Path c /\
              (isCodeDirName (Name d) = true \/ failedSubdir env d = true).
Proof.
  intros Hr Hg; split; [exact determineFileType_not_Code|]; split.
  { intros e; unfold childType.
    destruct (IsDir e); [discriminate | apply determineFileType_not_Code]. }
  split.
  { intros d _; unfold rootKindOf.
    destruct (IsDefaultKitfileName env (Name d)); [discriminate|].
    destruct (IsDir d); [discriminate|].
    destruct (isReadme (Name d)); [discriminate|].
    destruct (isLicense (Name d)); [discriminate|].
    intros H; injection H; apply determineFileType_not_Code. }
  destruct (@GenerateKitfile_shape env packageOpt ds k Hr Hg) as (k2 & -> & _ & Hcode & _).
  intros c Hc.
  apply (in_map Code_Path) in Hc.
  rewrite attachLicense_Code_paths, Hcode in Hc.
  destruct (catchallFlag env ds || _).
  - destruct Hc as [<-|[]]; now left.
  - right; rewrite map_app in Hc; apply in_app_or in Hc.
    destruct Hc as [Hc|Hc].
    + apply in_map_iff in Hc; destruct Hc as (c0 & <- & Hc0).
      destruct (@passCode_origin env ds c0 Hc0) as (d & Hd & Hdir & Hn & Hs).
      exists d; auto.
    + rewrite map_map in Hc; simpl in Hc; rewrite map_id in Hc.
      rewrite unprocessedOf_filter in Hc.
      apply in_map_iff in Hc; destruct Hc as (d & <- & Hd).
      apply filter_In in Hd; destruct Hd as [Hd Hf].
      exists d; repeat split; try assumption; auto.
      now apply (@failedSubdir_IsDir env).
Qed.

(* ================================================================== *)
(** * The display name of the model *)
(* ================================================================== *)

(** With a single candidate the name is the filename without its
    extension and there are no parts. *)
Lemma addModelToKitfile_single (env : Env) (k : KitFile) (path : string) :
  addModelToKitfile env k [path] =
  Ok (set_Model k (Some (mkModel path (displayName path) "" []))).
Proof. reflexivity. Qed.

Example single_model_file_manifest :
  GenerateKitfile singleModelTree None =
  Ok (mkKitFile "1.0.0" emptyPackage
        (Some (mkModel "llama.gguf" "llama" "" [])) [] [] []).
Proof. vm_compute; reflexivity. Qed.

(** C5. With several candidates the name of the Model is not the
    filename of its path without the extension.  Two shards of the same
    size at the top level: the first is the Model and its name is empty.
    A directory with a large model file and two small configuration
    files: the model file is the Model and its name keeps the
    directory. *)
Theorem model_name_with_several_candidates :
  (exists k m,
     GenerateKitfile shardsTree None = Ok k /\
     KitFile_Model k = Some m /\
     Model_Path m = "model-00001.safetensors" /\
     Model_Name m = "" /\
     displayName (Model_Path m) = "model-00001") /\
  (exists k m,
     GenerateKitfile modelDirTree None = Ok k /\
     KitFile_Model k = Some m /\
     Model_Path m = "weights/model.safetensors" /\
     Model_Name m = "weights/model" /\
     displayName (Model_Path m) = "model").
Proof.
  split; do 2 eexists; (split; [vm_compute; reflexivity|]);
    (split; [reflexivity|]); repeat split; reflexivity.
Qed.

(* ================================================================== *)
(** * The theorems at work on the example trees *)
(* ================================================================== *)

Lemma determineFileType_precedence_witness :
  determineFileType "adapter_model.safetensors" = fileTypeModel /\
  determineFileType "notes.TXT" = fileTypeUnknown.
Proof.
  split.
  - apply (determineFileType_precedence "adapter_model.safetensors").
    exists ".safetensors"; split; [simpl; auto | now exists "adapter_model"].
  - apply (determineFileType_precedence "notes.TXT");
      apply anySuffix_false; reflexivity.
Defined.

Lemma addDirToKitfile_summarizes_witness :
  isSpecialDirName (Name (dir "weights")) = false /\
  ReadDir modelDirTree "weights"
    = Some [file "config.json"; file "model.safetensors";
            file "tokenizer.json"] /\
  addDirToKitfile modelDirTree k0 "weights" (dir "weights")
    = (k0,
       ["weights/model.safetensors"; "weights/config.json";
        "weights/tokenizer.json"],
       None).
Proof.
  split; [reflexivity|]; split; [reflexivity|].
  destruct (@addDirToKitfile_summarizes modelDirTree k0 "weights"
              (dir "weights")
              [file "config.json"; file "model.safetensors";
               file "tokenizer.json"] eq_refl eq_refl)
    as (_ & _ & Hmodel & _).
  rewrite Hmodel; reflexivity.
Defined.

(** C4, as the specification states it, fails on a directory with a
    model file and a source file: its summarization fails as mixed, and
    the model file joins the model candidates. *)
Lemma failed_summary_not_only_unprocessed :
  snd (addDirToKitfile mixedTree (kitfile (initState None)) "proj" (dir "proj"))
    = Some errMixedContent /\
  modelFiles (rootStep mixedTree (initState None) (dir "proj"))
    = ["proj/model.safetensors"] /\
  ~ onlyUnprocessedAppended (initState None) (dir "proj")
      (rootStep mixedTree (initState None) (dir "proj")).
Proof.
  split; [reflexivity|]; split; [reflexivity|].
  unfold onlyUnprocessedAppended; intros H.
  apply (f_equal modelFiles) in H; vm_compute in H; discriminate.
Qed.

Lemma rootStep_failed_summary_witness :
  IsDefaultKitfileName mixedTree (Name (dir "proj")) = false /\
  IsDir (dir "proj") = true /\
  snd (addDirToKitfile mixedTree (kitfile (initState None))
         (Name (dir "proj")) (dir "proj")) = Some errMixedContent /\
  kitfile (rootStep mixedTree (initState None) (dir "proj")) = k0 /\
  unprocessedDirPaths (rootStep mixedTree (initState None) (dir "proj"))
    = ["proj"].
Proof.
  split; [reflexivity|]; split; [reflexivity|]; split; [reflexivity|].
  destruct (@rootStep_failed_summary mixedTree (initState None) (dir "proj")
              errMixedContent eq_refl eq_refl eq_refl)
    as (Hk & _ & Hu & _).
  split; [exact Hk | exact Hu].
Defined.

Lemma addModelToKitfile_elects_witness :
  (2 <= List.length ["a.bin"; "b.bin"; "c.bin"] /\
   sizesOf sizedTree ["a.bin"; "b.bin"; "c.bin"] [100; 100; 310]%Z /\
   Forall (fun s => (0 <= s)%Z) [100; 100; 310]%Z /\
   (sumSizes [100; 100; 310] <= Int64.max_int)%Z /\
   exists m,
     addModelToKitfile sizedTree k0 ["a.bin"; "b.bin"; "c.bin"]
       = Ok (set_Model k0 (Some m)) /\
     Model_Path m = "c.bin" /\
     Model_Parts m = [mkModelPart "a.bin"; mkModelPart "b.bin"]) /\
  (sizesOf sizedTree ["x.bin"; "y.bin"; "z.bin"] [100; 110; 120]%Z /\
   exists m,
     addModelToKitfile sizedTree k0 ["x.bin"; "y.bin"; "z.bin"]
       = Ok (set_Model k0 (Some m)) /\
     Model_Path m = "x.bin" /\
     Model_Parts m = [mkModelPart "y.bin"; mkModelPart "z.bin"]).
Proof.
  assert (H1 : sizesOf sizedTree ["a.bin"; "b.bin"; "c.bin"] [100; 100; 310]%Z)
    by (repeat constructor).
  assert (H2 : sizesOf sizedTree ["x.bin"; "y.bin"; "z.bin"] [100; 110; 120]%Z)
    by (repeat constructor).
  assert (P1 : Forall (fun s => (0 <= s)%Z) [100; 100; 310]%Z)
    by (repeat constructor; lia).
  assert (P2 : Forall (fun s => (0 <= s)%Z) [100; 110; 120]%Z)
    by (repeat constructor; lia).
  split.
  - split; [simpl; lia|]; split; [exact H1|]; split; [exact P1|].
    split; [vm_compute; discriminate|].
    destruct (@addModelToKitfile_elects sizedTree k0
                ["a.bin"; "b.bin"; "c.bin"] [100; 100; 310]%Z
                (le_S _ _ (le_n 2)) H1 P1)
      as (m & Heq & Hbig & _); [vm_compute; discriminate|].
    exists m; split; [exact Heq|].
    destruct Hbig as (i & [Hi _] & Hp & Hparts & _); [reflexivity|].
    destruct i as [|[|[|i]]]; try discriminate Hi;
      [|destruct i; discriminate Hi].
    injection Hp as Hp; rewrite Hparts, <- Hp; split; reflexivity.
  - split; [exact H2|].
    destruct (@addModelToKitfile_elects sizedTree k0
                ["x.bin"; "y.bin"; "z.bin"] [100; 110; 120]%Z
                (le_S _ _ (le_n 2)) H2 P2)
      as (m & Heq & _ & Hsmall); [vm_compute; discriminate|].
    exists m; split; [exact Heq|].
    destruct Hsmall as [Hp Hparts]; [vm_compute; discriminate|].
    injection Hp as Hp; rewrite Hparts, <- Hp; split; reflexivity.
Defined.

(** C1, as the specification states it for every list of candidates,
    fails when the sum of the sizes does not fit an int64.  For sizes 1,
    2^63-1 and 2^63-1 the mean is 6148914691236517205 and the threshold
    2^63-1, which the largest size does not exceed, so the first
    candidate should be the Model; the sum of the source wraps around to
    -1, its mean and threshold are 0, and the second candidate is
    elected. *)
Lemma election_fails_when_sum_overflows :
  2 <= List.length ["a.bin"; "b.bin"; "c.bin"] /\
  sizesOf hugeSizesTree ["a.bin"; "b.bin"; "c.bin"] hugeSizes /\
  Forall (fun s => (0 <= s)%Z) hugeSizes /\
  (maxSize hugeSizes <= dominanceThreshold hugeSizes)%Z /\
  addModelToKitfile hugeSizesTree k0 ["a.bin"; "b.bin"; "c.bin"]
    = Ok (set_Model k0
            (Some (mkModel "b.bin" "b" ""
                     [mkModelPart "a.bin"; mkModelPart "c.bin"]))) /\
  ~ electedAsStated hugeSizesTree k0 ["a.bin"; "b.bin"; "c.bin"] hugeSizes.
Proof.
  assert (Hle : (maxSize hugeSizes <= dominanceThreshold hugeSizes)%Z)
    by (vm_compute; discriminate).
  assert (Heq : addModelToKitfile hugeSizesTree k0 ["a.bin"; "b.bin"; "c.bin"]
                = Ok (set_Model k0
                        (Some (mkModel "b.bin" "b" ""
                                 [mkModelPart "a.bin"; mkModelPart "c.bin"]))))
    by (vm_compute; reflexivity).
  split; [simpl; lia|]; split; [repeat constructor|].
  split; [repeat constructor; vm_compute; discriminate|].
  split; [exact Hle|]; split; [exact Heq|].
  intros (m & Hm & _ & Hfirst).
  rewrite Heq in Hm; injection Hm as <-.
  destruct (Hfirst Hle) as [Hp _]; discriminate Hp.
Qed.

Lemma license_attached_once_witness :
  (ReadBaseDir licensedModelTree
     = Some [file "LICENSE"; file "adapter.bin"; file "config.json";
             file "model.gguf"] /\
   exists k k0,
     GenerateKitfile licensedModelTree None = Ok k /\
     manifestBeforeLicense licensedModelTree None
       [file "LICENSE"; file "adapter.bin"; file "config.json";
        file "model.gguf"] = Ok k0 /\
     chosenTarget k0 "Apache-2.0" = onModel /\
     receives k onModel "Apache-2.0" /\
     (forall t', t' <> onModel -> untouched k emptyPackage t')) /\
  (ReadBaseDir datasetLicenseTree = Some [file "LICENSE"; file "data.csv"] /\
   exists k k0,
     GenerateKitfile datasetLicenseTree None = Ok k /\
     manifestBeforeLicense datasetLicenseTree None
       [file "LICENSE"; file "data.csv"] = Ok k0 /\
     chosenTarget k0 "MIT" = onDataset /\
     receives k onDataset "MIT" /\
     KitFile_DataSets k = [mkDataSet "data.csv" "MIT"] /\
     (forall t', t' <> onDataset -> untouched k emptyPackage t')) /\
  (ReadBaseDir codeLicenseTree = Some [file "LICENSE"; dir "src"] /\
   exists k k0,
     GenerateKitfile codeLicenseTree None = Ok k /\
     manifestBeforeLicense codeLicenseTree None
       [file "LICENSE"; dir "src"] = Ok k0 /\
     chosenTarget k0 "MIT" = onCode /\
     receives k onCode "MIT" /\
     KitFile_Code k = [mkCode "src" "MIT"] /\
     (forall t', t' <> onCode -> untouched k emptyPackage t')) /\
  (ReadBaseDir datasetAndCodeTree
     = Some [file "LICENSE"; file "data.csv"; dir "src"] /\
   exists k k0,
     GenerateKitfile datasetAndCodeTree None = Ok k /\
     manifestBeforeLicense datasetAndCodeTree None
       [file "LICENSE"; file "data.csv"; dir "src"] = Ok k0 /\
     chosenTarget k0 "MIT" = onDataset /\
     receives k onDataset "MIT" /\
     KitFile_DataSets k = [mkDataSet "data.csv" "MIT"] /\
     KitFile_Code k = [mkCode "src" ""] /\
     (forall t', t' <> onDataset -> untouched k emptyPackage t')) /\
  (ReadBaseDir licenseOnlyTree = Some [file "LICENSE"] /\
   exists k k0,
     GenerateKitfile licenseOnlyTree None = Ok k /\
     manifestBeforeLicense licenseOnlyTree None [file "LICENSE"] = Ok k0 /\
     chosenTarget k0 "MIT" = onPackage /\
     receives k onPackage "MIT" /\
     (forall t', t' <> onPackage -> untouched k emptyPackage t')).
Proof.
  split; [|split; [|split; [|split]]]; (split; [reflexivity|]).
  - destruct (GenerateKitfile licensedModelTree None) as [k|e] eqn:Hg;
      [|vm_compute in Hg; discriminate].
    destruct (@license_attached_once licensedModelTree None _ k eq_refl Hg)
      as (k0 & Hb & _ & _ & Hrec & Hun).
    exists k, k0; split; [reflexivity|]; split; [exact Hb|].
    vm_compute in Hb; injection Hb as <-.
    split; [reflexivity|]; split; [exact Hrec | exact Hun].
  - destruct (GenerateKitfile datasetLicenseTree None) as [k|e] eqn:Hg;
      [|vm_compute in Hg; discriminate].
    destruct (@license_attached_once datasetLicenseTree None _ k eq_refl Hg)
      as (k0 & Hb & _ & _ & Hrec & Hun).
    exists k, k0; split; [reflexivity|]; split; [exact Hb|].
    vm_compute in Hb; injection Hb as <-.
    split; [reflexivity|]; split; [exact Hrec|]; split; [|exact Hun].
    vm_compute in Hg; injection Hg as <-; reflexivity.
  - destruct (GenerateKitfile codeLicenseTree None) as [k|e] eqn:Hg;
      [|vm_compute in Hg; discriminate].
    destruct (@license_attached_once codeLicenseTree None _ k eq_refl Hg)
      as (k0 & Hb & _ & _ & Hrec & Hun).
    exists k, k0; split; [reflexivity|]; split; [exact Hb|].
    vm_compute in Hb; injection Hb as <-.
    split; [reflexivity|]; split; [exact Hrec|]; split; [|exact Hun].
    vm_compute in Hg; injection Hg as <-; reflexivity.
  - destruct (GenerateKitfile datasetAndCodeTree None) as [k|e] eqn:Hg;
      [|vm_compute in Hg; discriminate].
    destruct (@license_attached_once datasetAndCodeTree None _ k eq_refl Hg)
      as (k0 & Hb & _ & _ & Hrec & Hun).
    exists k, k0; split; [reflexivity|]; split; [exact Hb|].
    vm_compute in Hb; injection Hb as <-.
    split; [reflexivity|]; split; [exact Hrec|].
    split; [|split; [|exact Hun]];
      vm_compute in Hg; injection Hg as <-; reflexivity.
  - destruct (GenerateKitfile licenseOnlyTree None) as [k|e] eqn:Hg;
      [|vm_compute in Hg; discriminate].
    destruct (@license_attached_once licenseOnlyTree None _ k eq_refl Hg)
      as (k0 & Hb & _ & _ & Hrec & Hun).
    exists k, k0; split; [reflexivity|]; split; [exact Hb|].
    vm_compute in Hb; injection Hb as <-.
    split; [reflexivity|]; split; [exact Hrec | exact Hun].
Defined.

Lemma code_section_layout_witness :
  (ReadBaseDir sevenDirsTree = Some sevenDirs /\
   List.length (filter (failedSubdir sevenDirsTree) sevenDirs) = 7 /\
   exists k,
     GenerateKitfile sevenDirsTree None = Ok k /\
     map Code_Path (KitFile_Code k) = ["."]) /\
  (ReadBaseDir codeDirsTree = Some [dir "locked"; dir "scripts"; dir "src"] /\
   catchallFlag codeDirsTree [dir "locked"; dir "scripts"; dir "src"] = false /\
   exists k,
     GenerateKitfile codeDirsTree None = Ok k /\
     map Code_Path (KitFile_Code k) = ["src"; "locked"; "scripts"]).
Proof.
  split.
  - split; [reflexivity|]; split; [reflexivity|]; eexists.
    split; [vm_compute; reflexivity|].
    apply (@code_section_layout sevenDirsTree None sevenDirs _
             eq_refl eq_refl).
    reflexivity.
  - split; [reflexivity|]; split; [reflexivity|]; eexists.
    split; [vm_compute; reflexivity|].
    destruct (@code_section_layout codeDirsTree None
                [dir "locked"; dir "scripts"; dir "src"] _ eq_refl eq_refl)
      as (_ & H & _).
    apply H; [reflexivity | vm_compute; lia].
Defined.


Lemma pending_metadata_placement_witness :
  (ReadBaseDir licensedModelTree
     = Some [file "LICENSE"; file "adapter.bin"; file "config.json";
             file "model.gguf"] /\
   exists k m,
     GenerateKitfile licensedModelTree None = Ok k /\
     KitFile_Model k = Some m /\
     Model_Path m = "model.gguf" /\
     Model_Parts m = [mkModelPart "adapter.bin"; mkModelPart "config.json"] /\
     KitFile_DataSets k = []) /\
  (ReadBaseDir metadataOnlyTree
     = Some [file "data.csv"; file "labels.json"; file "schema.yaml"] /\
   exists k,
     GenerateKitfile metadataOnlyTree None = Ok k /\
     KitFile_Model k = None /\
     map DataSet_Path (KitFile_DataSets k)
       = ["data.csv"; "labels.json"; "schema.yaml"]).
Proof.
  split; (split; [reflexivity|]).
  - destruct (GenerateKitfile licensedModelTree None) as [k|e] eqn:Hg;
      [|vm_compute in Hg; discriminate].
    destruct (@pending_metadata_placement licensedModelTree None _ k
                eq_refl Hg) as [Hsome _].
    destruct Hsome as (m1 & m & Ha & Hk & Hpath & _ & Hparts & Hd);
      [vm_compute; discriminate|].
    vm_compute in Ha; injection Ha as <-.
    exists k, m; split; [reflexivity|]; split; [exact Hk|].
    split; [exact Hpath|]; split; [exact Hparts|].
    destruct (KitFile_DataSets k); [reflexivity | discriminate Hd].
  - destruct (GenerateKitfile metadataOnlyTree None) as [k|e] eqn:Hg;
      [|vm_compute in Hg; discriminate].
    destruct (@pending_metadata_placement metadataOnlyTree None _ k
                eq_refl Hg) as [_ Hnone].
    exists k; split; [reflexivity|]; apply Hnone; reflexivity.
Defined.

Lemma code_entries_are_directories_witness :
  ReadBaseDir codeDirsTree = Some [dir "locked"; dir "scripts"; dir "src"] /\
  exists k,
    GenerateKitfile codeDirsTree None = Ok k /\
    KitFile_Code k = [mkCode "src" ""; mkCode "locked" ""; mkCode "scripts" ""] /\
    forall c, In c (KitFile_Code k) ->
      Code_Path c = "." \/
      exists d, In d [dir "locked"; dir "scripts"; dir "src"] /\
                IsDir d = true /\ Name d = Code_Path c /\
                (isCodeDirName (Name d) = true \/
                 failedSubdir codeDirsTree d = true).
Proof.
  split; [reflexivity|]; eexists.
  split; [vm_compute; reflexivity|]; split; [reflexivity|].
  apply (@code_entries_are_directories codeDirsTree None
           [dir "locked"; dir "scripts"; dir "src"] _ eq_refl eq_refl).
Defined.

(* ================================================================== *)
(** * Classification and extensions *)
(* ================================================================== *)

Section Extensions.

Lemma append_empty_r (s : string) : (s ++ "")%string = s.
Proof. induction s as [|c s IH]; simpl; [reflexivity | now rewrite IH]. Qed.

Lemma list_ascii_of_string_app (p q : string) :
  list_ascii_of_string (p ++ q) =
  list_ascii_of_string p ++ list_ascii_of_string q.
Proof. induction p as [|c p IH]; simpl; [reflexivity | now rewrite IH]. Qed.

Lemma string_of_list_ascii_app (a b : list ascii) :
  string_of_list_ascii (a ++ b) =
  (string_of_list_ascii a ++ string_of_list_ascii b)%string.
Proof. induction a as [|c a IH]; simpl; [reflexivity | now rewrite IH]. Qed.

Lemma forallb_rev {A : Type} (f : A -> bool) (l : list A) :
  forallb f (rev l) = forallb f l.
Proof.
  induction l as [|x l IH]; simpl; [reflexivity|].
  rewrite forallb_app, IH; simpl; rewrite andb_true_r; apply andb_comm.
Qed.

(** The scan of [filepath.Ext] passes plain bytes and stops at the first
    dot. *)
Lemma ext_scan_plain (r1 rest acc : list ascii) :
  forallb plainByte r1 = true ->
  ext_scan (r1 ++ "."%char :: rest) acc = "."%char :: rev r1 ++ acc.
Proof.
  revert acc; induction r1 as [|c r1 IH]; intros acc H; simpl in *.
  - reflexivity.
  - apply andb_true_iff in H; destruct H as [Hc H].
    unfold plainByte in Hc; apply andb_true_iff in Hc.
    destruct Hc as [Hs Hd]; apply negb_true_iff in Hs, Hd.
    rewrite Hs, Hd, IH by assumption.
    now rewrite <- app_assoc.
Qed.

(** What the scan returns: nothing, or the dot it stopped at followed
    by the plain bytes it passed. *)
Lemma ext_scan_found (r acc : list ascii) :
  ext_scan r acc = [] \/
  exists r1 r2,
    r = r1 ++ "."%char :: r2 /\ forallb plainByte r1 = true /\
    ext_scan r acc = "."%char :: rev r1 ++ acc.
Proof.
  revert acc; induction r as [|c r IH]; intros acc; simpl.
  - now left.
  - destruct (IsPathSeparator c) eqn:Hs; [now left|].
    destruct (Ascii.eqb_spec c "."%char) as [->|Hd].
    + right; exists [], r; repeat split.
    + destruct (IH (c :: acc)) as [E | (r1 & r2 & -> & Hp & E)];
        [now left|].
      right; exists (c :: r1), r2; simpl; repeat split.
      * unfold plainByte at 1; rewrite Hs, Hp.
        destruct (Ascii.eqb_spec c "."%char); [contradiction | reflexivity].
      * now rewrite E, <- app_assoc.
Qed.

Lemma Ext_suffix (path : string) : isSuffixOf (Ext path) path.
Proof.
  unfold Ext, isSuffixOf.
  destruct (ext_scan_found (rev (list_ascii_of_string path)) [])
    as [E | (r1 & r2 & Hr & _ & E)]; rewrite E.
  - exists path; simpl; now rewrite append_empty_r.
  - exists (string_of_list_ascii (rev r2)).
    rewrite app_nil_r, <- string_of_list_ascii_app.
    apply (f_equal (@rev ascii)) in Hr.
    rewrite rev_involutive, rev_app_distr in Hr; simpl in Hr.
    rewrite <- app_assoc in Hr; simpl in Hr.
    now rewrite <- Hr, string_of_list_ascii_of_string.
Qed.

Lemma Ext_shape (path : string) :
  Ext path = "" \/ isExtension (Ext path) = true.
Proof.
  unfold Ext.
  destruct (ext_scan_found (rev (list_ascii_of_string path)) [])
    as [E | (r1 & r2 & _ & Hp & E)]; rewrite E; [now left | right].
  simpl; rewrite list_ascii_of_string_of_list_ascii, app_nil_r.
  now rewrite forallb_rev.
Qed.

Lemma Ext_of_suffix (path s : string) :
  isExtension s = true -> isSuffixOf s path -> Ext path = s.
Proof.
  intros Hs [p ->]; destruct s as [|c t]; [discriminate|].
  simpl in Hs; apply andb_true_iff in Hs; destruct Hs as [Hc Ht].
  apply Ascii.eqb_eq in Hc; subst c.
  unfold Ext; rewrite list_ascii_of_string_app; simpl.
  rewrite rev_app_distr; simpl; rewrite <- app_assoc; simpl.
  rewrite ext_scan_plain by now rewrite forallb_rev.
  rewrite rev_involutive, app_nil_r; simpl.
  now rewrite string_of_list_ascii_of_string.
Qed.

(** For an extension, having it as suffix is having it as [Ext]. *)
Lemma HasSuffix_extension (path s : string) :
  isExtension s = true -> HasSuffix path s = (Ext path =? s)%string.
Proof.
  intros Hs; destruct (String.eqb_spec (Ext path) s) as [<-|Hne].
  - apply HasSuffix_spec, Ext_suffix.
  - destruct (HasSuffix path s) eqn:E; [|reflexivity].
    exfalso; apply Hne, Ext_of_suffix; [assumption|].
    now apply HasSuffix_spec.
Qed.

Lemma anySuffix_extension (path : string) (table : list string) :
  forallb isExtension table = true ->
  anySuffix path table = existsb (String.eqb (Ext path)) table.
Proof.
  induction table as [|s l IH]; simpl; intros H; [reflexivity|].
  apply andb_true_iff in H; destruct H as [Hs Hl].
  rewrite (@HasSuffix_extension path s Hs), IH by assumption.
  destruct (Ext path =? s)%string; reflexivity.
Qed.

Lemma existsb_eqb_In (x : string) (l : list string) :
  existsb (String.eqb x) l = true <-> In x l.
Proof.
  rewrite existsb_exists; split.
  - intros (y & Hy & E); apply String.eqb_eq in E; now subst.
  - intros H; exists x; split; [assumption | apply String.eqb_refl].
Qed.

Lemma matchesTable_extension (path : string) (table : list string) :
  forallb isExtension table = true ->
  matchesTable path table <-> In (Ext path) table.
Proof.
  intros H; rewrite <- anySuffix_spec, (@anySuffix_extension path table H).
  apply existsb_eqb_In.
Qed.

Lemma overlap_In (a b : list string) (x : string) :
  In x a -> In x b -> overlap a b = true.
Proof.
  intros Ha Hb; unfold overlap; apply existsb_exists.
  exists x; split; [assumption | now apply existsb_eqb_In].
Qed.

End Extensions.

(** X1. The category of a filename is decided by its extension alone,
    the part of the name from its last dot on: it is Model, Metadata,
    Docs or Dataset exactly when the extension is in the table of that
    category, and Unknown exactly when the extension is in none of the
    four tables. *)
Theorem determineFileType_by_extension (filename : string) :
  (determineFileType filename = fileTypeModel <->
   In (Ext filename) modelWeightsSuffixes) /\
  (determineFileType filename = fileTypeMetadata <->
   In (Ext filename) metadataSuffixes) /\
  (determineFileType filename = fileTypeDocs <->
   In (Ext filename) docsSuffixes) /\
  (determineFileType filename = fileTypeDataset <->
   In (Ext filename) datasetSuffixes) /\
  (determineFileType filename = fileTypeUnknown <->
   forall table, In table suffixTables -> ~ In (Ext filename) table).
Proof.
  assert (Ho : forall a b,
             overlap a b = false -> In (Ext filename) a ->
             In (Ext filename) b -> False).
  { intros a b Hab Ha Hb; rewrite (@overlap_In a b _ Ha Hb) in Hab.
    discriminate. }
  unfold determineFileType.
  rewrite !anySuffix_extension by reflexivity.
  destruct (existsb (String.eqb (Ext filename)) modelWeightsSuffixes) eqn:E1;
    [apply existsb_eqb_In in E1|];
  (destruct (existsb (String.eqb (Ext filename)) metadataSuffixes) eqn:E2;
    [apply existsb_eqb_In in E2|]);
  (destruct (existsb (String.eqb (Ext filename)) docsSuffixes) eqn:E3;
    [apply existsb_eqb_In in E3|]);
  (destruct (existsb (String.eqb (Ext filename)) datasetSuffixes) eqn:E4;
    [apply existsb_eqb_In in E4|]);
  try (match goal with
       | Ha : In _ ?a, Hb : In _ ?b |- _ =>
           exfalso; apply (Ho a b); [reflexivity | exact Ha | exact Hb]
       end);
  repeat match goal with
    | H : existsb _ _ = false |- _ =>
        apply not_true_iff_false in H; rewrite existsb_eqb_In in H
    end;
  (repeat split; try discriminate; try tauto;
   try (intros H; exfalso;
        first [ apply (H modelWeightsSuffixes); [simpl; tauto | assumption]
              | apply (H metadataSuffixes); [simpl; tauto | assumption]
              | apply (H docsSuffixes); [simpl; tauto | assumption]
              | apply (H datasetSuffixes); [simpl; tauto | assumption] ])).
  intros _ table [<- | [<- | [<- | [<- | []]]]]; assumption.
Qed.

(** X2. No filename matches two of the suffix tables, so the order in
    which [determineFileType] consults them never decides. *)
Theorem suffix_tables_exclusive (filename : string) (a b : list string) :
  In a suffixTables -> In b suffixTables ->
  matchesTable filename a -> matchesTable filename b -> a = b.
Proof.
  intros Ha Hb Hma Hmb.
  assert (Ea : forallb isExtension a = true).
  { destruct Ha as [<- | [<- | [<- | [<- | []]]]]; reflexivity. }
  assert (Eb : forallb isExtension b = true).
  { destruct Hb as [<- | [<- | [<- | [<- | []]]]]; reflexivity. }
  apply (@matchesTable_extension filename a Ea) in Hma.
  apply (@matchesTable_extension filename b Eb) in Hmb.
  pose proof (@overlap_In a b _ Hma Hmb) as Ho.
  destruct Ha as [<- | [<- | [<- | [<- | []]]]];
    destruct Hb as [<- | [<- | [<- | [<- | []]]]];
    try reflexivity; vm_compute in Ho; discriminate.
Qed.

(* ================================================================== *)
(** * More on the model assembler *)
(* ================================================================== *)

Section AssemblerMore.

Variable env : Env.

Lemma TrimSuffix_Ext (s : string) : (TrimSuffix s (Ext s) ++ Ext s)%string = s.
Proof.
  pose proof (Ext_suffix s) as H; apply HasSuffix_spec in H.
  unfold TrimSuffix; rewrite H.
  unfold HasSuffix in H; apply andb_true_iff in H; destruct H as [Hl He].
  apply Nat.leb_le in Hl; apply String.eqb_eq in He.
  pose proof (@substring_split s (String.length s - String.length (Ext s)))
    as Hs.
  replace (String.length s - (String.length s - String.length (Ext s)))
    with (String.length (Ext s)) in Hs by lia.
  rewrite He in Hs; apply Hs; lia.
Qed.

Lemma statLoop_first_failure (pre post : list string) (p : string) :
  Forall (fun q => StatSize env q <> None) pre ->
  StatSize env p = None ->
  forall acc, statLoop env (pre ++ p :: post) acc = Err (errProcessFile p).
Proof.
  intros Hpre Hp; induction Hpre as [|q pre Hq _ IH];
    intros [[lf ls] avg]; simpl.
  - now rewrite Hp.
  - destruct (StatSize env q) as [size|]; [|congruence].
    destruct (ls <? size)%Z; apply IH.
Qed.

(** After the loop either no file was larger than the starting size, or
    the largest file is one of the paths.  When the loop starts from
    zero over files of size zero, the sum stays zero. *)
Lemma statLoop_largest_in (paths : list string) :
  (forall p s, In p paths -> StatSize env p = Some s -> (0 <= s)%Z) ->
  forall lf0 ls0 avg0 lf ls avg,
    statLoop env paths (lf0, ls0, avg0) = Ok (lf, ls, avg) ->
    (ls0 < ls)%Z /\ In lf paths \/
    ls = ls0 /\ lf = lf0 /\ (ls0 = 0%Z -> avg0 = 0%Z -> avg = 0%Z).
Proof.
  induction paths as [|p ps IH]; intros Hpos lf0 ls0 avg0 lf ls avg H;
    simpl in H.
  - injection H as <- <- <-; right; auto.
  - destruct (StatSize env p) as [size|] eqn:Hp; [|discriminate].
    assert (Hs : (0 <= size)%Z) by (apply (Hpos p); [now left | assumption]).
    assert (Hpos' : forall q s, In q ps -> StatSize env q = Some s ->
                                (0 <= s)%Z)
      by (intros q s Hq; apply Hpos; now right).
    destruct (ls0 <? size)%Z eqn:E.
    + apply Z.ltb_lt in E.
      destruct (IH Hpos' _ _ _ _ _ _ H) as [[Hlt Hin] | (-> & -> & _)].
      * left; split; [lia | now right].
      * left; split; [lia | now left].
    + apply Z.ltb_ge in E.
      destruct (IH Hpos' _ _ _ _ _ _ H) as [[Hlt Hin] | (-> & -> & Havg)].
      * left; split; [lia | now right].
      * right; repeat split; intros -> ->.
        assert (size = 0%Z) as -> by lia.
        now apply Havg.
Qed.

Lemma ModelPart_paths (l : list string) :
  map ModelPart_Path (map mkModelPart l) = l.
Proof. induction l as [|x l IH]; simpl; [reflexivity | now rewrite IH]. Qed.

Lemma filter_other_perm (paths : list string) (x : string) :
  NoDup paths -> In x paths ->
  Permutation (x :: filter (fun p => negb (p =? x)%string) paths) paths.
Proof.
  intros Hnd Hin; apply In_nth_error in Hin; destruct Hin as [i Hi].
  rewrite (filter_other_NoDup i Hnd Hi).
  rewrite <- (firstn_skipn i paths) at 3.
  assert (Hsk : skipn i paths = x :: skipn (S i) paths).
  { clear Hnd; revert i Hi; induction paths as [|a l IH]; intros [|i] Hi;
      simpl in *; try discriminate.
    - now injection Hi as ->.
    - now apply IH. }
  rewrite Hsk; apply Permutation_middle.
Qed.

(** The Model path and the paths of its parts, taken together, are the
    candidates. *)
Lemma addModelToKitfile_perm (k k' : KitFile) (paths : list string) :
  paths <> [] ->
  NoDup paths ->
  (forall p s, In p paths -> StatSize env p = Some s -> (0 <= s)%Z) ->
  addModelToKitfile env k paths = Ok k' ->
  exists m,
    k' = set_Model k (Some m) /\ Model_License m = "" /\
    Permutation (Model_Path m :: map ModelPart_Path (Model_Parts m)) paths.
Proof.
  intros Hne Hnd Hpos H.
  destruct paths as [|p1 [|p2 rest]]; [congruence| |].
  - simpl in H; injection H as <-; eexists; repeat split; reflexivity.
  - unfold addModelToKitfile in H.
    destruct (statLoop env (p1 :: p2 :: rest) ("", 0%Z, 0%Z))
      as [[[lf ls] avg]|e] eqn:Hs; [|discriminate].
    destruct (_ <? _)%Z eqn:E in H; injection H as <-;
      eexists; (split; [reflexivity|]); (split; [reflexivity|]);
      cbn [Model_Path Model_Parts].
    + unfold partsExcept; rewrite ModelPart_paths.
      destruct (statLoop_largest_in _ Hpos _ _ _ Hs)
        as [[_ Hin] | (-> & _ & Havg)].
      * now apply filter_other_perm.
      * rewrite Havg in E by reflexivity.
        exfalso; apply Z.ltb_lt in E; revert E.
        unfold Int64.div; rewrite Z.quot_0_l by (simpl; lia).
        vm_compute; discriminate.
    + change (mkModelPart p2 :: map mkModelPart rest)
        with (map mkModelPart (p2 :: rest)).
      rewrite ModelPart_paths; apply Permutation_refl.
Qed.

End AssemblerMore.

(** X3. The name that [addModelToKitfile] gives the Model is its path's
    file name, or its path, with the extension cut off, or it is empty:
    for a single candidate, name followed by the extension is the base
    name of the path; for several candidates the name is empty or, when
    followed by the extension of the path, is the whole path. *)
Theorem model_name_round_trip (env : Env) (k k' : KitFile)
  (paths : list string) (m : Model) :
  addModelToKitfile env k paths = Ok k' ->
  KitFile_Model k' = Some m ->
  paths <> [] ->
  (List.length paths = 1 ->
   (Model_Name m ++ Ext (Base (Model_Path m)))%string = Base (Model_Path m)) /\
  (2 <= List.length paths ->
   Model_Name m = "" \/
   (Model_Name m ++ Ext (Model_Path m))%string = Model_Path m).
Proof.
  intros H Hm Hne.
  destruct paths as [|p1 [|p2 rest]]; [congruence| |].
  - simpl in H; injection H as <-; simpl in Hm; injection Hm as <-.
    split; [intros _; apply TrimSuffix_Ext | simpl; lia].
  - split; [simpl; lia | intros _].
    unfold addModelToKitfile in H.
    destruct (statLoop env (p1 :: p2 :: rest) ("", 0%Z, 0%Z))
      as [[[lf ls] avg]|e]; [|discriminate].
    destruct (_ <? _)%Z in H; injection H as <-; simpl in Hm;
      injection Hm as <-; simpl.
    + right; apply TrimSuffix_Ext.
    + now left.
Qed.

(** X4. Among distinct candidates whose sizes are not negative, the
    assembler loses and repeats nothing: the Model path together with
    the paths of the parts is a rearrangement of the candidates, also
    when the sum of the sizes overflows.  In particular the Model path is
    a candidate and is not among the parts. *)
Theorem addModelToKitfile_partition (env : Env) (k k' : KitFile)
  (paths : list string) :
  paths <> [] ->
  NoDup paths ->
  (forall p s, In p paths -> StatSize env p = Some s -> (0 <= s)%Z) ->
  addModelToKitfile env k paths = Ok k' ->
  exists m,
    KitFile_Model k' = Some m /\
    Permutation (Model_Path m :: map ModelPart_Path (Model_Parts m)) paths /\
    In (Model_Path m) paths /\
    ~ In (Model_Path m) (map ModelPart_Path (Model_Parts m)).
Proof.
  intros Hne Hnd Hpos H.
  destruct (@addModelToKitfile_perm env k k' paths Hne Hnd Hpos H)
    as (m & -> & _ & Hperm).
  exists m; split; [reflexivity|]; split; [exact Hperm|]; split.
  - apply (Permutation_in _ Hperm); now left.
  - apply Permutation_sym in Hperm.
    pose proof (Permutation_NoDup Hperm Hnd) as Hnd'.
    now inversion Hnd'.
Qed.

(** X5. When several candidates are stat-ed, the error of the assembler
    names the first candidate, in discovery order, whose stat fails, and
    [GenerateKitfile] fails with that error. *)
Theorem first_failing_stat_reported (env : Env)
  (packageOpt : option Package) (ds : list DirEntry)
  (pre post : list string) (p : string) :
  ReadBaseDir env = Some ds ->
  modelCandidates env ds = pre ++ p :: post ->
  2 <= List.length (pre ++ p :: post) ->
  Forall (fun q => StatSize env q <> None) pre ->
  StatSize env p = None ->
  (forall k, addModelToKitfile env k (pre ++ p :: post)
             = Err (errProcessFile p)) /\
  GenerateKitfile env packageOpt = Err (errAddModel (errProcessFile p)).
Proof.
  intros Hr Hc Hlen Hpre Hp.
  assert (Ha : forall k, addModelToKitfile env k (pre ++ p :: post)
                         = Err (errProcessFile p)).
  { intros k.
    pose proof (@statLoop_first_failure env pre post p Hpre Hp ("", 0%Z, 0%Z))
      as Hs.
    destruct (pre ++ p :: post) as [|p1 [|p2 rest]]; simpl in Hlen; try lia.
    unfold addModelToKitfile; now rewrite Hs. }
  split; [exact Ha|].
  unfold GenerateKitfile; rewrite Hr, rootPass_init.
  unfold assembleModel; simpl.
  rewrite Hc, Ha.
  destruct (pre ++ p :: post) as [|x l] eqn:E; [|reflexivity].
  destruct pre; discriminate.
Qed.

(* ================================================================== *)
(** * What the later phases leave alone *)
(* ================================================================== *)

Lemma attachLicense_frame (k : KitFile) (l : string) :
  KitFile_Docs (attachLicense k l) = KitFile_Docs k /\
  KitFile_ManifestVersion (attachLicense k l) = KitFile_ManifestVersion k /\
  Package_Name (KitFile_Package (attachLicense k l))
    = Package_Name (KitFile_Package k) /\
  Package_Description (KitFile_Package (attachLicense k l))
    = Package_Description (KitFile_Package k) /\
  (Package_License (KitFile_Package (attachLicense k l))
     = Package_License (KitFile_Package k) \/
   Package_License (KitFile_Package (attachLicense k l)) = l).
Proof.
  unfold attachLicense.
  destruct (KitFile_Model k) as [m|], (l =? "")%string,
    (KitFile_DataSets k) as [|x [|x' xs]],
    (KitFile_Code k) as [|c [|c' cs]]; simpl; repeat split; auto.
Qed.

Lemma addCodeLayers_frame (k : KitFile) (flag : bool) (un : list string) :
  KitFile_Docs (addCodeLayers k flag un) = KitFile_Docs k /\
  KitFile_ManifestVersion (addCodeLayers k flag un)
    = KitFile_ManifestVersion k /\
  KitFile_Package (addCodeLayers k flag un) = KitFile_Package k.
Proof.
  unfold addCodeLayers; destruct (flag || _); simpl; repeat split.
Qed.

Lemma dirManifest_Docs (env : Env) (d : DirEntry) :
  KitFile_Docs (dirManifest env d) = [] \/
  KitFile_Docs (dirManifest env d) = [mkDocs (Name d) ""].
Proof.
  unfold dirManifest, summarize, addDirToKitfile.
  destruct (Name d =? "docs")%string; [now right|].
  destruct (isCodeDirName (Name d)); [now left|].
  destruct (ReadDir env (Name d)) as [entries|]; [|now left].
  destruct (sortEntries (Name d) entries) as [mf dc].
  destruct (reduceContents dc) as [overall mixed].
  destruct mixed; [now left|]; destruct overall; simpl; auto.
Qed.

(** The sections that only the pass over the base directory fills. *)
Lemma GenerateKitfile_frame (env : Env) (packageOpt : option Package)
  (ds : list DirEntry) (k : KitFile) :
  ReadBaseDir env = Some ds ->
  GenerateKitfile env packageOpt = Ok k ->
  KitFile_Docs k = passDocs env ds /\
  KitFile_ManifestVersion k = "1.0.0" /\
  Package_Name (KitFile_Package k)
    = Package_Name (suppliedPackage packageOpt) /\
  Package_Description (KitFile_Package k)
    = Package_Description (suppliedPackage packageOpt) /\
  (Package_License (KitFile_Package k)
     = Package_License (suppliedPackage packageOpt) \/
   Package_License (KitFile_Package k) = passLicense env ds "").
Proof.
  intros Hr Hg; unfold GenerateKitfile in Hg; rewrite Hr in Hg.
  rewrite rootPass_init in Hg; unfold assembleModel in Hg; simpl in Hg.
  match type of Hg with
  | match ?a with _ => _ end = _ => destruct a as [k1|e] eqn:Ha
  end; [|discriminate].
  injection Hg as <-.
  destruct (attachLicense_frame
              (addCodeLayers k1 (catchallFlag env ds) (unprocessedOf env ds))
              (passLicense env ds "")) as (-> & -> & -> & -> & Hl).
  destruct (addCodeLayers_frame k1 (catchallFlag env ds)
              (unprocessedOf env ds)) as (-> & -> & Hp).
  rewrite Hp in Hl.
  assert (Hk1 : KitFile_Docs k1 = passDocs env ds /\
                KitFile_ManifestVersion k1 = "1.0.0" /\
                KitFile_Package k1 = suppliedPackage packageOpt).
  { destruct (modelCandidates env ds) as [|c cs].
    - injection Ha as <-; repeat split.
    - match type of Ha with
      | match ?a with _ => _ end = _ => destruct a as [k0'|e] eqn:Hm
      end; [|discriminate].
      injection Ha as <-.
      destruct (@addModelToKitfile_ok_shape env _ k0' (c :: cs) Hm)
        as (m & -> & _); [discriminate|].
      unfold appendModelParts; simpl; repeat split. }
  destruct Hk1 as (-> & -> & Hpk); rewrite Hp, Hpk in *.
  repeat split; assumption.
Qed.

(** X6. In the manifest of a successful generation with at least one
    model candidate, distinct candidates and sizes that are not
    negative, every model candidate and every pending top-level metadata
    file appears exactly once: the Model path followed by the paths of
    its parts is a rearrangement of the candidates followed by the
    pending metadata files. *)
Theorem model_section_keeps_every_candidate (env : Env)
  (packageOpt : option Package) (ds : list DirEntry) (k : KitFile) :
  ReadBaseDir env = Some ds ->
  GenerateKitfile env packageOpt = Ok k ->
  modelCandidates env ds <> [] ->
  NoDup (modelCandidates env ds) ->
  (forall p s, In p (modelCandidates env ds) ->
               StatSize env p = Some s -> (0 <= s)%Z) ->
  exists m,
    KitFile_Model k = Some m /\
    Permutation
      (Model_Path m :: map ModelPart_Path (Model_Parts m))
      (modelCandidates env ds ++ pendingMetadata env ds).
Proof.
  intros Hr Hg Hne Hnd Hpos.
  destruct (@GenerateKitfile_shape env packageOpt ds k Hr Hg)
    as (k2 & -> & _ & _ & _ & Hsome).
  destruct (Hsome Hne) as (m1 & Ha & _ & Hm & _).
  destruct (@addModelToKitfile_perm env _ _ _ Hne Hnd Hpos Ha)
    as (m' & Heq & _ & Hperm).
  assert (m' = m1) as ->.
  { apply (f_equal KitFile_Model) in Heq; simpl in Heq; congruence. }
  pose proof (attachLicense_Model k2 (passLicense env ds "")) as Hmodel.
  rewrite Hm in Hmodel; destruct Hmodel as (m & Hk & Hpath & _ & Hparts).
  exists m; split; [exact Hk|].
  rewrite Hpath, Hparts; simpl.
  rewrite map_app, ModelPart_paths.
  apply (Permutation_app_tail (pendingMetadata env ds)) in Hperm.
  exact Hperm.
Qed.

(** X7. The Docs section of a generated manifest is exactly what the
    pass over the base directory collected, in encounter order; model
    assembly, the catch-all and the license leave it alone.  Every
    top-level readme file is listed with the description "Readme file"
    and every license file with "License file"; every entry has the
    name of an entry of the base directory for path, and its
    description says what kind of entry that is. *)
Theorem docs_section_of_manifest (env : Env) (packageOpt : option Package)
  (ds : list DirEntry) (k : KitFile) :
  ReadBaseDir env = Some ds ->
  GenerateKitfile env packageOpt = Ok k ->
  KitFile_Docs k = passDocs env ds /\
  (forall d, In d ds -> rootKindOf env d = readmeFile ->
             In (mkDocs (Name d) "Readme file") (KitFile_Docs k)) /\
  (forall d, In d ds -> rootKindOf env d = licenseFile ->
             In (mkDocs (Name d) "License file") (KitFile_Docs k)) /\
  (forall x, In x (KitFile_Docs k) ->
     exists d,
       In d ds /\ Docs_Path x = Name d /\
       match rootKindOf env d with
       | readmeFile => Docs_Description x = "Readme file"
       | licenseFile => Docs_Description x = "License file"
       | subdirectory => Docs_Description x = ""
       | typedFile t => t = fileTypeDocs /\ Docs_Description x = ""
       | skippedKitfile => False
       end).
Proof.
  intros Hr Hg.
  destruct (@GenerateKitfile_frame env packageOpt ds k Hr Hg) as (-> & _).
  split; [reflexivity|]; unfold passDocs; repeat split.
  - intros d Hd Hk; apply in_flat_map; exists d; split; [assumption|].
    unfold entryDocs; rewrite Hk; now left.
  - intros d Hd Hk; apply in_flat_map; exists d; split; [assumption|].
    unfold entryDocs; rewrite Hk; now left.
  - intros x Hx; apply in_flat_map in Hx; destruct Hx as (d & Hd & Hx).
    exists d; split; [assumption|].
    unfold entryDocs in Hx.
    destruct (rootKindOf env d) as [| | | |t]; try contradiction.
    + destruct (dirManifest_Docs env d) as [E|E]; rewrite E in Hx;
        [contradiction|].
      destruct Hx as [<-|[]]; split; reflexivity.
    + destruct Hx as [<-|[]]; split; reflexivity.
    + destruct Hx as [<-|[]]; split; reflexivity.
    + destruct t; try contradiction.
      destruct Hx as [<-|[]]; repeat split.
Qed.

(** X8. Every generated manifest has manifest version "1.0.0" and the
    name and description of the package that the caller supplied (both
    empty when none was supplied); the license of its package is the
    supplied one or the detected one. *)
Theorem manifest_version_and_package (env : Env)
  (packageOpt : option Package) (ds : list DirEntry) (k : KitFile) :
  ReadBaseDir env = Some ds ->
  GenerateKitfile env packageOpt = Ok k ->
  KitFile_ManifestVersion k = "1.0.0" /\
  match packageOpt with
  | Some p =>
      Package_Name (KitFile_Package k) = Package_Name p /\
      Package_Description (KitFile_Package k) = Package_Description p /\
      (Package_License (KitFile_Package k) = Package_License p \/
       Package_License (KitFile_Package k) = passLicense env ds "")
  | None =>
      Package_Name (KitFile_Package k) = "" /\
      Package_Description (KitFile_Package k) = "" /\
      (Package_License (KitFile_Package k) = "" \/
       Package_License (KitFile_Package k) = passLicense env ds "")
  end.
Proof.
  intros Hr Hg.
  destruct (@GenerateKitfile_frame env packageOpt ds k Hr Hg)
    as (_ & Hv & Hn & Hd & Hl).
  split; [exact Hv|].
  destruct packageOpt as [p|]; simpl in *; repeat split; assumption.
Qed.

(* ================================================================== *)
(** * What the generation reads *)
(* ================================================================== *)

Section Reads.

Lemma rootStep_skipped (env : Env) (st : genState) (d : DirEntry) :
  IsDefaultKitfileName env (Name d) = true -> rootStep env st d = st.
Proof. intros H; unfold rootStep; now rewrite H. Qed.

Lemma rootPass_filter_skipped (env : Env) (ds : list DirEntry) :
  forall st,
    rootPass env (filter (notKitfile env) ds) st = rootPass env ds st.
Proof.
  unfold rootPass, notKitfile; induction ds as [|d ds IH]; intros st; simpl.
  - reflexivity.
  - destruct (IsDefaultKitfileName env (Name d)) eqn:E; simpl.
    + now rewrite (rootStep_skipped env st d E).
    + apply IH.
Qed.

Lemma rootPass_withBaseDir (env : Env) (l ds : list DirEntry) :
  forall st, rootPass (withBaseDir env l) ds st = rootPass env ds st.
Proof.
  unfold rootPass; induction ds as [|d ds IH]; intros st; simpl.
  - reflexivity.
  - rewrite IH; reflexivity.
Qed.

Lemma statLoop_ext (env env' : Env) (paths : list string) :
  (forall p, In p paths -> StatSize env p = StatSize env' p) ->
  forall acc, statLoop env paths acc = statLoop env' paths acc.
Proof.
  induction paths as [|p ps IH]; intros H [[lf ls] avg]; simpl.
  - reflexivity.
  - rewrite <- (H p) by now left.
    destruct (StatSize env p) as [size|]; [|reflexivity].
    destruct (ls <? size)%Z; apply IH; intros q Hq; apply H; now right.
Qed.

Lemma addModelToKitfile_ext (env env' : Env) (k : KitFile)
  (paths : list string) :
  (2 <= List.length paths ->
   forall p, In p paths -> StatSize env p = StatSize env' p) ->
  addModelToKitfile env k paths = addModelToKitfile env' k paths.
Proof.
  intros H; destruct paths as [|p1 [|p2 rest]]; try reflexivity.
  unfold addModelToKitfile.
  rewrite (@statLoop_ext env env' (p1 :: p2 :: rest)); [reflexivity|].
  apply H; simpl; lia.
Qed.

Lemma assembleModel_withBaseDir (env : Env) (l : list DirEntry)
  (st : genState) :
  assembleModel (withBaseDir env l) st = assembleModel env st.
Proof.
  unfold assembleModel.
  rewrite (@addModelToKitfile_ext (withBaseDir env l) env);
    [reflexivity | reflexivity].
Qed.

Lemma rootKindOf_agree (env env' : Env) (d : DirEntry) :
  IsDefaultKitfileName env (Name d) = IsDefaultKitfileName env' (Name d) ->
  rootKindOf env d = rootKindOf env' d.
Proof. intros H; unfold rootKindOf; now rewrite H. Qed.

Lemma addDirToKitfile_agree (env env' : Env) (k : KitFile) (d : DirEntry) :
  (isSpecialDirName (Name d) = false ->
   ReadDir env (Name d) = ReadDir env' (Name d)) ->
  addDirToKitfile env k (Name d) d = addDirToKitfile env' k (Name d) d.
Proof.
  unfold isSpecialDirName, addDirToKitfile; intros H.
  destruct (Name d =? "docs")%string; [reflexivity|].
  destruct (isCodeDirName (Name d)); [reflexivity|].
  now rewrite H.
Qed.

Lemma rootStep_agree (env env' : Env) (st : genState) (d : DirEntry) :
  agreeOn env env' d -> rootStep env st d = rootStep env' st d.
Proof.
  intros (Hk & Hd & Hl).
  pose proof (rootKindOf_agree env env' d Hk) as Hkind.
  unfold rootStep; rewrite <- Hk.
  unfold rootKindOf in Hd, Hl.
  destruct (IsDefaultKitfileName env (Name d)); [reflexivity|].
  destruct (IsDir d).
  - rewrite (@addDirToKitfile_agree env env' (kitfile st) d); [reflexivity|].
    now apply Hd.
  - destruct (isReadme (Name d)); [reflexivity|].
    destruct (isLicense (Name d)); [|reflexivity].
    unfold detectLicense; now rewrite Hl.
Qed.

Lemma rootPass_agree (env env' : Env) (ds : list DirEntry) :
  Forall (agreeOn env env') ds ->
  forall st, rootPass env ds st = rootPass env' ds st.
Proof.
  unfold rootPass; induction 1 as [|d ds Hd _ IH]; intros st; simpl.
  - reflexivity.
  - rewrite (rootStep_agree st Hd); apply IH.
Qed.

End Reads.

(** X9. Entries of the base directory whose name is a default Kitfile
    name, files and directories alike, have no influence: leaving them
    out of the listing gives the same result. *)
Theorem kitfile_entries_ignored (env : Env) (packageOpt : option Package)
  (ds : list DirEntry) :
  GenerateKitfile (withBaseDir env (filter (notKitfile env) ds)) packageOpt
  = GenerateKitfile (withBaseDir env ds) packageOpt.
Proof.
  unfold GenerateKitfile; simpl ReadBaseDir; cbv beta iota.
  rewrite !rootPass_withBaseDir, !assembleModel_withBaseDir.
  rewrite rootPass_filter_skipped.
  reflexivity.
Qed.

(** X10. The result of [GenerateKitfile] depends on the environment only
    through the listing of the base directory and, for its entries:
    whether the name is a Kitfile name, the listing of a subdirectory
    that is not named docs, src, pkg, lib or build, the scan of a license
    file, and the sizes of the model candidates when there are at least
    two.  Nothing else is read: not the contents of docs, src, pkg, lib
    and build, not the size of a single candidate, nothing below the
    first level of subdirectories. *)
Theorem GenerateKitfile_reads_only (env env' : Env)
  (packageOpt : option Package) (ds : list DirEntry) :
  ReadBaseDir env = Some ds ->
  ReadBaseDir env' = Some ds ->
  Forall (agreeOn env env') ds ->
  (2 <= List.length (modelCandidates env ds) ->
   forall p, In p (modelCandidates env ds) ->
             StatSize env p = StatSize env' p) ->
  GenerateKitfile env packageOpt = GenerateKitfile env' packageOpt.
Proof.
  intros Hr Hr' Hagree Hstat.
  unfold GenerateKitfile; rewrite Hr, Hr'.
  rewrite <- (rootPass_agree Hagree).
  rewrite rootPass_init; unfold assembleModel; simpl.
  destruct (modelCandidates env ds) as [|c cs] eqn:Hc; [reflexivity|].
  rewrite (@addModelToKitfile_ext env env' _ (c :: cs) Hstat).
  reflexivity.
Qed.

(** X11. The license type that the pass detects is decided by the last
    license file of the listing alone: it is the identifier of the
    single license the scanner matches in that file, and it is empty
    when that file cannot be read or matches no license or several,
    whatever earlier license files matched. *)
Theorem last_license_file_decides (env : Env) (st : genState)
  (ds1 ds2 : list DirEntry) (d : DirEntry) :
  rootKindOf env d = licenseFile ->
  Forall (fun d' => rootKindOf env d' <> licenseFile) ds2 ->
  let detected := detectedLicenseType (rootPass env (ds1 ++ d :: ds2) st) in
  detected = fst (detectLicense env (Name d)) /\
  (forall id, ScanFile env (Name d) = Some [id] -> detected = id) /\
  (detected <> "" -> ScanFile env (Name d) = Some [detected]).
Proof.
  intros Hk Hrest detected; subst detected.
  assert (H : detectedLicenseType (rootPass env (ds1 ++ d :: ds2) st)
              = fst (detectLicense env (Name d))).
  { rewrite rootPass_spec; simpl.
    unfold passLicense; rewrite fold_left_app; simpl; rewrite Hk.
    generalize (fst (detectLicense env (Name d))) as l.
    induction Hrest as [|d' ds' Hd' _ IH]; intros l; simpl; [reflexivity|].
    rewrite <- IH.
    destruct (rootKindOf env d'); try reflexivity; congruence. }
  rewrite H; unfold detectLicense.
  split; [reflexivity|]; split.
  - intros id ->; reflexivity.
  - destruct (ScanFile env (Name d)) as [[|id [|id' ids]]|]; simpl;
      congruence.
Qed.

(* ================================================================== *)
(** * More on the directory summarizer *)
(* ================================================================== *)

Section SummarizerMore.

Lemma app_one_neq {A : Type} (l : list A) (x : A) : l ++ [x] <> l.
Proof.
  intros H; apply (f_equal (@List.length A)) in H.
  rewrite length_app in H; simpl in H; lia.
Qed.

Lemma existsb_perm {A : Type} (f : A -> bool) (l l' : list A) :
  Permutation l l' -> existsb f l = existsb f l'.
Proof.
  induction 1 as [|x l l' _ IH|x y l|l l' l'' _ IH1 _ IH2]; simpl.
  - reflexivity.
  - now rewrite IH.
  - destruct (f x), (f y); reflexivity.
  - congruence.
Qed.

Lemma filter_perm {A : Type} (f : A -> bool) (l l' : list A) :
  Permutation l l' -> Permutation (filter f l) (filter f l').
Proof.
  induction 1 as [|x l l' _ IH|x y l|l l' l'' _ IH1 _ IH2]; simpl.
  - constructor.
  - destruct (f x); [now constructor | assumption].
  - destruct (f x), (f y); try apply Permutation_refl; constructor.
  - eapply Permutation_trans; eassumption.
Qed.

Lemma activeCategories_perm (entries entries' : list DirEntry) :
  Permutation entries entries' ->
  activeCategories entries = activeCategories entries'.
Proof.
  intros H; unfold activeCategories; apply filter_ext.
  intros t; unfold active; now apply existsb_perm.
Qed.

Lemma childrenOf_perm (dirPath : string) (entries entries' : list DirEntry)
  (t : fileType) :
  Permutation entries entries' ->
  Permutation (childrenOf dirPath entries t) (childrenOf dirPath entries' t).
Proof.
  intros H; unfold childrenOf; apply Permutation_map; now apply filter_perm.
Qed.

Lemma activeCategories_active (entries : list DirEntry) (t : fileType)
  (dirPath : string) :
  In t (activeCategories entries) -> childrenOf dirPath entries t <> [].
Proof.
  unfold activeCategories; intros H; apply filter_In in H.
  destruct H as [_ H]; rewrite (active_children dirPath) in H.
  destruct (childrenOf dirPath entries t); [discriminate H | discriminate].
Qed.

End SummarizerMore.

(** X12. A call of [addDirToKitfile] leaves the manifest as it is or
    appends one entry, with the directory path and nothing else, to
    exactly one of Docs, Datasets and Code.  When it returns an error, and
    when it returns candidates, the manifest is as it was; and when it
    returns no error it has appended an entry or returned at least one
    candidate. *)
Theorem addDirToKitfile_appends_one (env : Env) (k : KitFile)
  (dirPath : string) (d : DirEntry) :
  let r := addDirToKitfile env k dirPath d in
  appendsOne k dirPath (fst (fst r)) /\
  (snd r <> None -> fst (fst r) = k) /\
  (snd (fst r) <> [] -> fst (fst r) = k) /\
  (snd r = None -> fst (fst r) <> k \/ snd (fst r) <> []).
Proof.
  intros r; subst r; unfold appendsOne.
  assert (Hdocs : set_Docs k (KitFile_Docs k ++ [mkDocs dirPath ""]) <> k).
  { intros H; apply (f_equal KitFile_Docs) in H; simpl in H.
    exact (@app_one_neq _ _ _ H). }
  assert (Hdata :
            set_DataSets k (KitFile_DataSets k ++ [mkDataSet dirPath ""]) <> k).
  { intros H; apply (f_equal KitFile_DataSets) in H; simpl in H.
    exact (@app_one_neq _ _ _ H). }
  assert (Hcode : set_Code k (KitFile_Code k ++ [mkCode dirPath ""]) <> k).
  { intros H; apply (f_equal KitFile_Code) in H; simpl in H.
    exact (@app_one_neq _ _ _ H). }
  destruct (isSpecialDirName (Name d)) eqn:Hn.
  - unfold isSpecialDirName in Hn; unfold addDirToKitfile.
    destruct (Name d =? "docs")%string; simpl in *.
    + repeat split; auto; congruence.
    + rewrite Hn; simpl; repeat split; auto; congruence.
  - destruct (ReadDir env dirPath) as [entries|] eqn:Hr.
    + rewrite (@addDirToKitfile_spec env k dirPath d entries Hn Hr).
      unfold summarizeSpec.
      destruct (activeCategories entries) as [|t [|t' l]] eqn:Ha.
      * simpl; repeat split; auto; congruence.
      * assert (Hin : In t (activeCategories entries))
          by (rewrite Ha; now left).
        pose proof (@activeCategories_active entries t dirPath Hin) as Hne.
        destruct t; simpl; repeat split; auto; try congruence.
        intros _; right; intros H; apply app_eq_nil in H; tauto.
      * destruct t; simpl; repeat split; auto; congruence.
    + unfold isSpecialDirName in Hn; apply orb_false_iff in Hn.
      destruct Hn as [Hd Hc]; unfold addDirToKitfile.
      rewrite Hd, Hc, Hr; simpl; repeat split; auto; congruence.
Qed.

(** X13. The summary of a subdirectory does not depend on the order of
    its listing: for two listings with the same entries,
    [addDirToKitfile] changes the manifest alike and returns the same
    error; the candidates it returns are the same up to their order. *)
Theorem summary_order_independent (env env' : Env) (k : KitFile)
  (dirPath : string) (d : DirEntry) (entries entries' : list DirEntry) :
  isSpecialDirName (Name d) = false ->
  ReadDir env dirPath = Some entries ->
  ReadDir env' dirPath = Some entries' ->
  Permutation entries entries' ->
  let r := addDirToKitfile env k dirPath d in
  let r' := addDirToKitfile env' k dirPath d in
  fst (fst r) = fst (fst r') /\
  snd r = snd r' /\
  Permutation (snd (fst r)) (snd (fst r')).
Proof.
  intros Hn Hr Hr' Hp r r'; subst r r'.
  rewrite (@addDirToKitfile_spec env k dirPath d entries Hn Hr).
  rewrite (@addDirToKitfile_spec env' k dirPath d entries' Hn Hr').
  unfold summarizeSpec; rewrite <- (activeCategories_perm Hp).
  pose proof (childrenOf_perm dirPath fileTypeModel Hp) as Hm.
  pose proof (childrenOf_perm dirPath fileTypeMetadata Hp) as Hd.
  destruct (activeCategories entries) as [|t [|t' l]].
  - simpl; repeat split; constructor.
  - destruct t; simpl; repeat split; try constructor.
    now apply Permutation_app.
  - destruct t; simpl; repeat split; assumption.
Qed.

(* ================================================================== *)
(** * The further theorems at work on the example trees *)
(* ================================================================== *)

Lemma suffix_tables_exclusive_witness :
  In modelWeightsSuffixes suffixTables /\
  matchesTable "model.safetensors" modelWeightsSuffixes /\
  modelWeightsSuffixes = modelWeightsSuffixes.
Proof.
  assert (Hi : In modelWeightsSuffixes suffixTables) by (now left).
  assert (Hm : matchesTable "model.safetensors" modelWeightsSuffixes).
  { exists ".safetensors"; split; [now left | now exists "model"]. }
  split; [exact Hi|]; split; [exact Hm|].
  exact (@suffix_tables_exclusive "model.safetensors" _ _ Hi Hi Hm Hm).
Defined.

Lemma model_name_round_trip_witness :
  (addModelToKitfile singleModelTree k0 ["dir/llama.gguf"]
     = Ok (set_Model k0 (Some (mkModel "dir/llama.gguf" "llama" "" []))) /\
   ("llama" ++ Ext (Base "dir/llama.gguf"))%string = Base "dir/llama.gguf") /\
  (exists k' m,
     addModelToKitfile sizedTree k0 ["a.bin"; "b.bin"; "c.bin"] = Ok k' /\
     KitFile_Model k' = Some m /\
     (Model_Name m = "" \/
      (Model_Name m ++ Ext (Model_Path m))%string = Model_Path m)).
Proof.
  split.
  - split; [reflexivity|].
    apply (@model_name_round_trip singleModelTree k0 _ ["dir/llama.gguf"]
             (mkModel "dir/llama.gguf" "llama" "" []) eq_refl eq_refl);
      [discriminate | reflexivity].
  - destruct (addModelToKitfile sizedTree k0 ["a.bin"; "b.bin"; "c.bin"])
      as [k'|e] eqn:H; [|vm_compute in H; discriminate].
    destruct (KitFile_Model k') as [m|] eqn:Hm;
      [|vm_compute in H; injection H as <-; discriminate].
    exists k', m; split; [reflexivity|]; split; [exact Hm|].
    apply (@model_name_round_trip sizedTree k0 k' _ m H Hm);
      [discriminate | simpl; lia].
Defined.

Lemma addModelToKitfile_partition_witness :
  NoDup ["a.bin"; "b.bin"; "c.bin"] /\
  (forall p s, In p ["a.bin"; "b.bin"; "c.bin"] ->
               StatSize sizedTree p = Some s -> (0 <= s)%Z) /\
  exists k' m,
    addModelToKitfile sizedTree k0 ["a.bin"; "b.bin"; "c.bin"] = Ok k' /\
    KitFile_Model k' = Some m /\
    Permutation (Model_Path m :: map ModelPart_Path (Model_Parts m))
                ["a.bin"; "b.bin"; "c.bin"].
Proof.
  assert (Hnd : NoDup ["a.bin"; "b.bin"; "c.bin"]).
  { repeat constructor; simpl; intuition discriminate. }
  assert (Hpos : forall p s, In p ["a.bin"; "b.bin"; "c.bin"] ->
                             StatSize sizedTree p = Some s -> (0 <= s)%Z).
  { intros p s [<-|[<-|[<-|[]]]] H; vm_compute in H; injection H as <-; lia. }
  split; [exact Hnd|]; split; [exact Hpos|].
  destruct (addModelToKitfile sizedTree k0 ["a.bin"; "b.bin"; "c.bin"])
    as [k'|e] eqn:H; [|vm_compute in H; discriminate].
  destruct (@addModelToKitfile_partition sizedTree k0 k'
              ["a.bin"; "b.bin"; "c.bin"]) as (m & Hm & Hperm & _);
    [discriminate | exact Hnd | exact Hpos | exact H |].
  exists k', m; repeat split; assumption.
Defined.

Lemma first_failing_stat_reported_witness :
  ReadBaseDir brokenStatTree = Some [file "a.bin"; file "b.bin"] /\
  modelCandidates brokenStatTree [file "a.bin"; file "b.bin"]
    = ["a.bin"] ++ "b.bin" :: [] /\
  StatSize brokenStatTree "b.bin" = None /\
  GenerateKitfile brokenStatTree None
    = Err (errAddModel (errProcessFile "b.bin")).
Proof.
  split; [reflexivity|]; split; [reflexivity|]; split; [reflexivity|].
  apply (@first_failing_stat_reported brokenStatTree None
           [file "a.bin"; file "b.bin"] ["a.bin"] [] "b.bin"
           eq_refl eq_refl).
  - simpl; lia.
  - repeat constructor; discriminate.
  - reflexivity.
Defined.

Lemma model_section_keeps_every_candidate_witness :
  ReadBaseDir licensedModelTree
    = Some [file "LICENSE"; file "adapter.bin"; file "config.json";
            file "model.gguf"] /\
  exists k m,
    GenerateKitfile licensedModelTree None = Ok k /\
    KitFile_Model k = Some m /\
    Permutation (Model_Path m :: map ModelPart_Path (Model_Parts m))
                ["adapter.bin"; "model.gguf"; "config.json"].
Proof.
  split; [reflexivity|].
  destruct (GenerateKitfile licensedModelTree None) as [k|e] eqn:Hg;
    [|vm_compute in Hg; discriminate].
  destruct (@model_section_keeps_every_candidate licensedModelTree None
              [file "LICENSE"; file "adapter.bin"; file "config.json";
               file "model.gguf"] k eq_refl Hg) as (m & Hm & Hperm).
  - vm_compute; discriminate.
  - repeat constructor; simpl; intuition discriminate.
  - intros p s [<-|[<-|[]]] H; vm_compute in H; injection H as <-; lia.
  - exists k, m; repeat split; assumption.
Defined.

Lemma docs_section_of_manifest_witness :
  ReadBaseDir docsTree
    = Some [file "LICENSE"; file "README.md"; dir "docs"; file "guide.pdf";
            file "main.py"] /\
  exists k,
    GenerateKitfile docsTree None = Ok k /\
    KitFile_Docs k
      = [mkDocs "LICENSE" "License file"; mkDocs "README.md" "Readme file";
         mkDocs "docs" ""; mkDocs "guide.pdf" ""].
Proof.
  split; [reflexivity|].
  destruct (GenerateKitfile docsTree None) as [k|e] eqn:Hg;
    [|vm_compute in Hg; discriminate].
  exists k; split; [reflexivity|].
  destruct (@docs_section_of_manifest docsTree None _ k eq_refl Hg)
    as (-> & _).
  reflexivity.
Defined.

Lemma manifest_version_and_package_witness :
  ReadBaseDir licenseOnlyTree = Some [file "LICENSE"] /\
  exists k,
    GenerateKitfile licenseOnlyTree (Some examplePackage) = Ok k /\
    KitFile_ManifestVersion k = "1.0.0" /\
    Package_Name (KitFile_Package k) = "demo" /\
    Package_Description (KitFile_Package k) = "A demo".
Proof.
  split; [reflexivity|].
  destruct (GenerateKitfile licenseOnlyTree (Some examplePackage))
    as [k|e] eqn:Hg; [|vm_compute in Hg; discriminate].
  exists k; split; [reflexivity|].
  destruct (@manifest_version_and_package licenseOnlyTree
              (Some examplePackage) _ k eq_refl Hg) as (Hv & Hn & Hd & _).
  repeat split; assumption.
Defined.

Lemma GenerateKitfile_reads_only_witness :
  ReadBaseDir codeDirsTree = Some [dir "locked"; dir "scripts"; dir "src"] /\
  ReadBaseDir codeDirsVariant = Some [dir "locked"; dir "scripts"; dir "src"] /\
  ReadDir codeDirsTree "src" <> ReadDir codeDirsVariant "src" /\
  GenerateKitfile codeDirsTree None = GenerateKitfile codeDirsVariant None.
Proof.
  split; [reflexivity|]; split; [reflexivity|]; split; [discriminate|].
  apply (@GenerateKitfile_reads_only codeDirsTree codeDirsVariant None
           [dir "locked"; dir "scripts"; dir "src"] eq_refl eq_refl).
  - repeat constructor; try reflexivity; intros; try reflexivity;
      discriminate.
  - vm_compute; lia.
Defined.

Lemma last_license_file_decides_witness :
  rootKindOf twoLicensesTree (file "LICENSE.txt") = licenseFile /\
  ScanFile twoLicensesTree "LICENSE" = Some ["MIT"] /\
  detectedLicenseType
    (rootPass twoLicensesTree
       ([file "LICENSE"] ++ file "LICENSE.txt" :: [file "model.gguf"])
       (initState None)) = "".
Proof.
  split; [reflexivity|]; split; [reflexivity|].
  destruct (@last_license_file_decides twoLicensesTree (initState None)
              [file "LICENSE"] [file "model.gguf"] (file "LICENSE.txt")
              eq_refl) as (H & _).
  - repeat constructor; discriminate.
  - rewrite H; reflexivity.
Defined.

Lemma summary_order_independent_witness :
  isSpecialDirName (Name (dir "weights")) = false /\
  Permutation
    [file "config.json"; file "model.safetensors"; file "tokenizer.json"]
    [file "tokenizer.json"; file "model.safetensors"; file "config.json"] /\
  snd (addDirToKitfile modelDirTree k0 "weights" (dir "weights"))
    = snd (addDirToKitfile modelDirShuffled k0 "weights" (dir "weights")) /\
  Permutation
    (snd (fst (addDirToKitfile modelDirTree k0 "weights" (dir "weights"))))
    (snd (fst (addDirToKitfile modelDirShuffled k0 "weights" (dir "weights")))).
Proof.
  assert (Hp : Permutation
                 [file "config.json"; file "model.safetensors";
                  file "tokenizer.json"]
                 [file "tokenizer.json"; file "model.safetensors";
                  file "config.json"]).
  { apply (@Permutation_trans _ _
             [file "model.safetensors"; file "tokenizer.json";
              file "config.json"]).
    - apply (Permutation_cons_append
               [file "model.safetensors"; file "tokenizer.json"]).
    - apply perm_swap. }
  split; [reflexivity|]; split; [exact Hp|].
  destruct (@summary_order_independent modelDirTree modelDirShuffled k0
              "weights" (dir "weights") _ _ eq_refl eq_refl eq_refl Hp)
    as (_ & He & Hc).
  split; assumption.
Defined.
